(** * calibrate.py: the chessboard sampling loop and its hand-over to the solver

    A shallow embedding of [main] of [calibrate.py].

    What Python itself computes is modelled as it is written: the counters
    [frame] and [used_frames], the accumulator lists [obj_points] and
    [img_points], the pair [h, w], the test [frame % framestep != 0] (with its
    [ZeroDivisionError]), the [break]/[continue] structure of the
    [while True] loop, and the array [pattern_points].

    What OpenCV, the file system and the YAML/pickle writers do is outside the
    repository.  Those calls are the fields of the class [World], over which
    the whole development is parametric, and every call the program makes to
    the outside world is recorded, in program order, in a log of [event]s
    carried by the state.
    Coordinates produced by OpenCV are values of an abstract type [Num];
    the entries of [pattern_points] are the integers that [np.indices] yields
    (stored by numpy as float32, which represents them exactly). *)

From Stdlib Require Import String Ascii ZArith List Bool Lia FinFun.
From Stdlib Require Import DecimalString DecimalN.
Import ListNotations.
Open Scope Z_scope.

(** ** Python-level helpers *)

Inductive exn : Type :=
| ValueError          (* numpy: negative dimensions are not allowed *)
| ZeroDivisionError   (* [frame % 0] *)
| IndexError          (* list index out of range *)
| CvError.            (* cv2.error raised inside cv2.calibrateCamera *)

(** [a % b] on Python integers: floor modulo, the sign follows the divisor. *)
Definition py_mod (a b : Z) : exn + Z :=
  if b =? 0 then inl ZeroDivisionError else inr (a mod b).

(** [l[i]] on a Python list, negative indices counting from the end. *)
Definition py_index {A : Type} (l : list A) (i : Z) : option A :=
  let n := Z.of_nat (length l) in
  if i <? 0
  then if i + n <? 0 then None else nth_error l (Z.to_nat (i + n))
  else nth_error l (Z.to_nat i).

(** [range(n)] *)
Definition range (n : Z) : list Z := map Z.of_nat (seq 0 (Z.to_nat n)).

(** ['*' in input] *)
Fixpoint contains_star (s : string) : bool :=
  match s with
  | EmptyString => false
  | String c s' => if Ascii.eqb c "*"%char then true else contains_star s'
  end.

(** ** numpy: the pattern points (lines 24-25) *)

Definition point3 : Type := (Z * Z * Z)%type.

(** [np.prod(pattern_size)] *)
Definition np_prod (ps : Z * Z) : Z := fst ps * snd ps.

(** [np.zeros((n, 3), np.float32)] *)
Definition np_zeros3 (n : Z) : exn + list point3 :=
  if n <? 0 then inl ValueError else inr (repeat (0, 0, 0) (Z.to_nat n)).

(** [np.indices(pattern_size).T.reshape(-1, 2)]: [np.indices] has shape
    [(2, c, r)] with [indices[0][i][j] = i] and [indices[1][i][j] = j]; [.T]
    reverses the axes, so that [T[j][i] = (i, j)]; the reshape lists the rows
    of [T] in C order: [j] is the outer index and [i] the inner one. *)
Definition np_indices_T_reshape (ps : Z * Z) : exn + list (Z * Z) :=
  if (fst ps <? 0) || (snd ps <? 0) then inl ValueError
  else inr (flat_map (fun j => map (fun i => (i, j)) (range (fst ps)))
                     (range (snd ps))).

(** [a[:, :2] = b]: the first two columns of every row are overwritten, the
    third is kept; numpy refuses operands whose row counts differ. *)
Fixpoint assign_xy (a : list point3) (b : list (Z * Z)) : exn + list point3 :=
  match a, b with
  | [], [] => inr []
  | (_, _, z) :: a', (x, y) :: b' =>
      match assign_xy a' b' with
      | inr l => inr ((x, y, z) :: l)
      | inl e => inl e
      end
  | _, _ => inl ValueError
  end.

Definition pattern_points (pattern_size : Z * Z) : exn + list point3 :=
  match np_zeros3 (np_prod pattern_size) with
  | inl e => inl e
  | inr zeros =>
      match np_indices_T_reshape pattern_size with
      | inl e => inl e
      | inr idx => assign_xy zeros idx
      end
  end.

(** The points [(col, row, 0)] in raster order: row after row, the columns of
    a row from left to right.  [pattern_points_grid] below shows that this is
    the array that lines 24-25 build. *)
Definition grid (c r : Z) : list point3 :=
  flat_map (fun j => map (fun i => (i, j, 0)) (range c)) (range r).

(** ** The outside world *)

(** The five values returned by [cv2.calibrateCamera]. *)
Record Calibration (Num : Type) : Type := mkCalibration {
  rms : Num;
  camera_matrix : list (list Num);
  dist_coefs : list (list Num);
  rvecs : list (list Num);
  tvecs : list (list Num) }.

Class World : Type := {
  Img : Type;                                (* a decoded image (numpy array) *)
  Num : Type;                                (* a float produced by OpenCV *)
  glob : string -> list string;              (* glob.glob *)
  VideoCapture : string -> list Img;
      (* the frames that successive [read()] calls on the capture return *)
  imread : string -> Img;                    (* cv2.imread *)
  cvtColor : Img -> Img;                     (* cv2.cvtColor(_, COLOR_BGR2GRAY) *)
  shape : Img -> Z * Z;                      (* img.shape[:2], (rows, columns) *)
  findChessboardCorners : Img -> Z * Z -> bool * list (Num * Num);
  cornerSubPix : Img -> list (Num * Num) -> list (Num * Num);
      (* the corner array after the in-place refinement *)
  calibrateCamera :
    list (list (list point3)) -> list (list (list (Num * Num))) -> Z * Z ->
    option (Calibration Num)
      (* [None]: the call raises cv2.error *) }.

(** ** The program *)

Section Program.

Context {W : World}.

Definition Corners : Type := list (Num * Num).

(** One entry of [obj_points]: [pattern_points.reshape(1, -1, 3)], an array
    of shape [(1, n, 3)], that is one row holding the [n] points.  One entry
    of [img_points]: [corners.reshape(1, -1, 2)], of shape [(1, n, 2)]. *)
Definition ObjEntry : Type := list (list point3).
Definition ImgEntry : Type := list Corners.

Definition reshape_1 {A : Type} (a : list A) : list (list A) := [a].

(** The number of points held by an entry of shape [(1, n, k)]. *)
Definition entry_points {A : Type} (e : list (list A)) : nat :=
  length (concat e).

Inductive Source : Type :=
| Glob (files : list string)
| Capture (frames : list Img).

(** Lines 19-22. *)
Definition open_source (input : string) : Source :=
  if contains_star input then Glob (glob input)
  else Capture (VideoCapture input).

(** The arguments of [main], the source being open. *)
Record Config : Type := mkConfig {
  source : Source;
  output : string;
  pattern_size : Z * Z;
  debug_dir : option string;
  corners_f : option string;
  framestep : Z;
  max_frames : option Z }.

Inductive message : Type :=
| Searching (frame : Z)
| MsgOk
| MsgNotFound
| MsgFound (used : Z)
| MsgCalibrating
| MsgResults (c : Calibration Num).

Inductive pickled : Type :=
| PImgPoints (l : list ImgEntry)
| PObjPoints (l : list ObjEntry)
| PSize (wh : Z * Z).

(** The calls to the outside world, in program order. *)
Inductive event : Type :=
| Read (frame : Z)                  (* a frame was obtained from the source *)
| Stdout (m : message)
| Detect (frame : Z) (gray : Img)   (* cv2.findChessboardCorners *)
| SubPix (frame : Z) (gray : Img)   (* cv2.cornerSubPix *)
| DebugImage (dir : string) (frame : Z) (found : bool)
| PickleFile (path : string) (content : list pickled)
| Calibrate (objs : list ObjEntry) (imgs : list ImgEntry) (size : Z * Z)
| YamlFile (path : string) (c : Calibration Num).

(** The local variables of [main] that the loop updates, the read position
    of the capture, and the log. *)
Record state : Type := mkState {
  obj_points : list ObjEntry;
  img_points : list ImgEntry;
  h : Z;
  w : Z;
  frame : Z;
  used_frames : Z;
  cap_pos : nat;
  log : list event }.

(** Lines 27-31. *)
Definition init : state := mkState [] [] 0 0 (-1) 0 0 [].

Definition emit (e : event) (s : state) : state :=
  mkState (obj_points s) (img_points s) (h s) (w s) (frame s)
          (used_frames s) (cap_pos s) (log s ++ [e]).

Definition incr_frame (s : state) : state :=
  mkState (obj_points s) (img_points s) (h s) (w s) (frame s + 1)
          (used_frames s) (cap_pos s) (log s).

Definition advance_capture (s : state) : state :=
  mkState (obj_points s) (img_points s) (h s) (w s) (frame s)
          (used_frames s) (S (cap_pos s)) (log s).

(** Line 49. *)
Definition set_shape (hw : Z * Z) (s : state) : state :=
  mkState (obj_points s) (img_points s) (fst hw) (snd hw) (frame s)
          (used_frames s) (cap_pos s) (log s).

Inductive flow : Type :=
| Next (s : state)                  (* the next iteration starts *)
| Break (s : state)
| Raise (e : exn) (s : state).

Inductive loop_result : Type :=
| Exited (s : state)                (* left by [break]; for [main]: it returns *)
| Raised (e : exn) (s : state)
| Running (s : state).              (* more iterations than allowed *)

Definition final (r : loop_result) : state :=
  match r with Exited s | Raised _ s | Running s => s end.

Section Main.

Variable cfg : Config.
Variable pts : list point3.       (* the array [pattern_points] *)

(** Lines 54-56. *)
Definition accept (corners : Corners) (s : state) : state :=
  mkState (obj_points s ++ [reshape_1 pts])
          (img_points s ++ [reshape_1 corners])
          (h s) (w s) (frame s) (used_frames s + 1) (cap_pos s) (log s).

(** Line 58. *)
Definition max_reached (s : state) : bool :=
  match max_frames cfg with
  | Some m => m <=? used_frames s
  | None => false
  end.

(** Lines 64-67. *)
Definition debug (found : bool) (s : state) : state :=
  match debug_dir cfg with
  | Some d => emit (DebugImage d (frame s) found) s
  | None => s
  end.

(** Lines 47-67: one frame is offered to the detector. *)
Definition examine (img : Img) (s : state) : flow :=
  let s := emit (Stdout (Searching (frame s))) s in
  let gray := cvtColor img in
  let s := set_shape (shape gray) s in
  let r := findChessboardCorners gray (pattern_size cfg) in
  let s := emit (Detect (frame s) gray) s in
  if fst r then
    let corners := cornerSubPix gray (snd r) in
    let s := emit (SubPix (frame s) gray) s in
    let s := accept corners s in
    let s := emit (Stdout MsgOk) s in
    if max_reached s
    then Break (emit (Stdout (MsgFound (used_frames s))) s)
    else Next (debug true s)
  else
    Next (debug false (emit (Stdout MsgNotFound) s)).

(** Lines 33-67: the body of [while True]. *)
Definition body (s0 : state) : flow :=
  let s := incr_frame s0 in
  match source cfg with
  | Glob files =>
      if frame s =? Z.of_nat (length files) then Break s
      else
        match py_index files (frame s) with
        | None => Raise IndexError s
        | Some path => examine (imread path) (emit (Read (frame s)) s)
        end
  | Capture frames =>
      match nth_error frames (cap_pos s) with
      | None => Break s           (* retval is False *)
      | Some img =>
          let s := emit (Read (frame s)) (advance_capture s) in
          match py_mod (frame s) (framestep cfg) with
          | inl e => Raise e s
          | inr m => if negb (m =? 0) then Next s else examine img s
          end
      end
  end.

(** [while True]: at most [fuel] iterations of the body. *)
Fixpoint while_true (fuel : nat) (s : state) : loop_result :=
  match fuel with
  | O => Running s
  | S fuel' =>
      match body s with
      | Next s' => while_true fuel' s'
      | Break s' => Exited s'
      | Raise e s' => Raised e s'
      end
  end.

Definition source_length : nat :=
  match source cfg with
  | Glob files => length files
  | Capture frames => length frames
  end.

(** Lines 27-67.  One iteration per frame of the source and one more for
    the exhausted source: [sampling_terminates] below shows that this is
    always enough. *)
Definition sampling : loop_result := while_true (S source_length) init.

(** Lines 69-73. *)
Definition dump_corners (s : state) : state :=
  match corners_f cfg with
  | Some path =>
      emit (PickleFile path [PImgPoints (img_points s);
                             PObjPoints (obj_points s);
                             PSize (w s, h s)]) s
  | None => s
  end.

(** Lines 81-99.  The three [print]s of the results are one [MsgResults]
    event; the dictionary written to the YAML file holds [rms],
    [camera_matrix] and [dist_coefs] of the calibration. *)
Definition solve (s : state) : loop_result :=
  let s := emit (Stdout MsgCalibrating) s in
  let s := emit (Calibrate (obj_points s) (img_points s) (w s, h s)) s in
  match calibrateCamera (obj_points s) (img_points s) (w s, h s) with
  | None => Raised CvError s
  | Some c =>
      Exited (emit (YamlFile (output cfg) c) (emit (Stdout (MsgResults c)) s))
  end.

End Main.

(** Lines 24-99 of [main].  [Exited s]: [main] returns; [Raised e s]: it
    raises [e]; [s] holds the log in both cases. *)
Definition calibrate (cfg : Config) : loop_result :=
  match pattern_points (pattern_size cfg) with
  | inl e => Raised e init
  | inr pts =>
      match sampling cfg pts with
      | Exited s => solve cfg (dump_corners cfg s)
      | r => r
      end
  end.

Definition main (input output : string) (pattern_size : Z * Z)
    (debug_dir corners_f : option string) (framestep : Z)
    (max_frames : option Z) : loop_result :=
  calibrate (mkConfig (open_source input) output pattern_size debug_dir
                      corners_f framestep max_frames).

End Program.

(** ** Reading the log *)

Section Observers.

Context {W : World}.

(** The indices of the frames obtained from the source. *)
Definition read_frames (l : list event) : list Z :=
  flat_map (fun e => match e with Read i => [i] | _ => [] end) l.

(** The frames offered to the detector: index and grayscale image. *)
Definition offered (l : list event) : list (Z * Img) :=
  flat_map (fun e => match e with Detect i g => [(i, g)] | _ => [] end) l.

Definition offered_frames (l : list event) : list Z := map fst (offered l).

(** The accepted frames: the detector found the pattern on them and their
    corners were refined and stored. *)
Definition accepted (l : list event) : list (Z * Img) :=
  flat_map (fun e => match e with SubPix i g => [(i, g)] | _ => [] end) l.

(** The arguments of the calls to [cv2.calibrateCamera]. *)
Definition solver_calls (l : list event)
  : list (list ObjEntry * list ImgEntry * (Z * Z)) :=
  flat_map (fun e => match e with
                     | Calibrate o i sz => [(o, i, sz)]
                     | _ => []
                     end) l.

(** The contents of the corners files written. *)
Definition pickle_files (l : list event) : list (string * list pickled) :=
  flat_map (fun e => match e with
                     | PickleFile p c => [(p, c)]
                     | _ => []
                     end) l.

(** [img.shape[:2]] of the last frame offered to the detector, [(0, 0)] when
    there is none. *)
Definition last_shape (l : list event) : Z * Z :=
  match rev (offered l) with
  | (_, g) :: _ => shape g
  | [] => (0, 0)
  end.

Definition raises (r : loop_result) : Prop :=
  exists e s, r = Raised e s.

(** The states in which an iteration of the loop starts. *)
Inductive iterating (cfg : Config) (pts : list point3) : state -> Prop :=
| iterating_init : iterating cfg pts init
| iterating_next s s' :
    iterating cfg pts s -> body cfg pts s = Next s' -> iterating cfg pts s'.

(** The states in which an iteration starts or in which the loop is left. *)
Definition visited (cfg : Config) (pts : list point3) (s : state) : Prop :=
  iterating cfg pts s \/
  exists s0, iterating cfg pts s0 /\ body cfg pts s0 = Break s.

(** The multiples of [n], as Python's [frame % n != 0] decides them. *)
Definition multiple_of (n i : Z) : bool := i mod n =? 0.

Definition debug_events (cfg : Config) (i : Z) (found : bool) : list event :=
  match debug_dir cfg with
  | Some d => [DebugImage d i found]
  | None => []
  end.

(** *** One iteration, described from the state it starts in *)

(** The image that the source holds at position [k]. *)
Definition frame_image (cfg : Config) (k : nat) : option Img :=
  match source cfg with
  | Glob files => option_map imread (nth_error files k)
  | Capture frames => nth_error frames k
  end.

(** Whether the frame of index [i], once read, is offered to the detector. *)
Definition sampled (cfg : Config) (i : Z) : bool :=
  match source cfg with
  | Glob _ => true
  | Capture _ => multiple_of (framestep cfg) i
  end.

Definition zero_stride (cfg : Config) : bool :=
  match source cfg with
  | Glob _ => false
  | Capture _ => framestep cfg =? 0
  end.

(** The state once the next frame has been read. *)
Definition stepped (cfg : Config) (s : state) : state :=
  mkState (obj_points s) (img_points s) (h s) (w s) (frame s + 1)
          (used_frames s)
          (match source cfg with
           | Glob _ => cap_pos s
           | Capture _ => S (cap_pos s)
           end)
          (log s ++ [Read (frame s + 1)]).

(** The state after a frame on which the pattern was not found. *)
Definition rejected_state (cfg : Config) (img : Img) (s : state) : state :=
  let gray := cvtColor img in
  mkState (obj_points s) (img_points s)
          (fst (shape gray)) (snd (shape gray))
          (frame s) (used_frames s) (cap_pos s)
          (log s ++ [Stdout (Searching (frame s)); Detect (frame s) gray;
                     Stdout MsgNotFound]
                 ++ debug_events cfg (frame s) false).

(** The state after an acceptance (lines 52-57). *)
Definition accepted_state (cfg : Config) (pts : list point3) (img : Img)
    (s : state) (tail : list event) : state :=
  let gray := cvtColor img in
  mkState (obj_points s ++ [reshape_1 pts])
          (img_points s ++
             [reshape_1 (cornerSubPix gray
                (snd (findChessboardCorners gray (pattern_size cfg))))])
          (fst (shape gray)) (snd (shape gray))
          (frame s) (used_frames s + 1) (cap_pos s)
          (log s ++ [Stdout (Searching (frame s)); Detect (frame s) gray;
                     SubPix (frame s) gray; Stdout MsgOk] ++ tail).

(** Line 58, seen from the state before the acceptance. *)
Definition threshold_met (cfg : Config) (s : state) : bool :=
  match max_frames cfg with
  | Some m => m <=? used_frames s + 1
  | None => false
  end.

(** Events that none of the observers above retains. *)
Definition quiet (l : list event) : Prop :=
  read_frames l = [] /\ offered l = [] /\ accepted l = [] /\
  solver_calls l = [] /\ pickle_files l = [].

(** *** The end of [main], described from the state the loop leaves *)

Definition corners_file (s : state) : list pickled :=
  [PImgPoints (img_points s); PObjPoints (obj_points s); PSize (w s, h s)].

Definition dump_events (cfg : Config) (s : state) : list event :=
  match corners_f cfg with
  | Some path => [PickleFile path (corners_file s)]
  | None => []
  end.

Definition solver_args (s : state)
  : list ObjEntry * list ImgEntry * (Z * Z) :=
  (obj_points s, img_points s, (w s, h s)).

Definition result_events (cfg : Config) (s : state) : list event :=
  match calibrateCamera (obj_points s) (img_points s) (w s, h s) with
  | Some c => [Stdout (MsgResults c); YamlFile (output cfg) c]
  | None => []
  end.

(** The same run without a corners file. *)
Definition without_corners_f (cfg : Config) : Config :=
  mkConfig (source cfg) (output cfg) (pattern_size cfg) (debug_dir cfg)
           None (framestep cfg) (max_frames cfg).

(** *** Invariants of the loop *)

(** The counter [frame] and the read position agree with the source. *)
Definition pos_ok (cfg : Config) (s : state) : Prop :=
  -1 <= frame s /\
  frame s + 1 <= Z.of_nat (source_length cfg) /\
  match source cfg with
  | Glob _ => True
  | Capture _ => Z.of_nat (cap_pos s) = frame s + 1
  end.

(** What holds of the accumulated data whenever an iteration starts and
    when the loop is left. *)
Record data_inv (cfg : Config) (pts : list point3) (s : state) : Prop := {
  inv_lengths : length (obj_points s) = length (img_points s);
  inv_used : Z.of_nat (length (obj_points s)) = used_frames s;
  inv_entries : Forall (eq (reshape_1 pts)) (obj_points s);
  inv_shape : (h s, w s) = last_shape (log s);
  inv_accepted : Z.of_nat (length (accepted (log s))) = used_frames s;
  inv_images :
    Forall (fun ig => exists img,
              frame_image cfg (Z.to_nat (fst ig)) = Some img /\
              snd ig = cvtColor img)
           (offered (log s));
  inv_corners :
    Forall (fun e => exists img,
              fst (findChessboardCorners (cvtColor img) (pattern_size cfg))
              = true /\
              e = reshape_1
                    (cornerSubPix (cvtColor img)
                       (snd (findChessboardCorners (cvtColor img)
                               (pattern_size cfg)))))
           (img_points s);
  inv_solver : solver_calls (log s) = [];
  inv_pickle : pickle_files (log s) = [] }.

(** What holds in addition whenever an iteration starts. *)
Record iter_inv (cfg : Config) (s : state) : Prop := {
  inv_pos : pos_ok cfg s;
  inv_read : read_frames (log s) = range (frame s + 1);
  inv_offered :
    offered_frames (log s) = filter (sampled cfg) (range (frame s + 1));
  inv_below :
    forall m, max_frames cfg = Some m -> 1 <= m -> used_frames s < m }.

(** The loop was left because [read()] or the file list had nothing more
    to give. *)
Definition exhausted (cfg : Config) (s : state) : Prop :=
  frame s = Z.of_nat (source_length cfg) /\
  read_frames (log s) = range (Z.of_nat (source_length cfg)) /\
  forall m, max_frames cfg = Some m -> 1 <= m -> used_frames s < m.

(** The loop was left by line 60, right after an acceptance. *)
Definition stopped_on_accept (cfg : Config) (s : state) : Prop :=
  exists m l g,
    max_frames cfg = Some m /\ m <= used_frames s /\
    (1 <= m -> used_frames s = m) /\
    frame s < Z.of_nat (source_length cfg) /\
    read_frames (log s) = range (frame s + 1) /\
    log s = l ++ [Detect (frame s) g; SubPix (frame s) g; Stdout MsgOk;
                  Stdout (MsgFound (used_frames s))].

(** What holds in addition when the loop is left. *)
Record exit_inv (cfg : Config) (s : state) : Prop := {
  exit_offered :
    offered_frames (log s) = filter (sampled cfg) (read_frames (log s));
  exit_how : exhausted cfg s \/ stopped_on_accept cfg s }.

End Observers.

(** ** The claims of the specification that the program does not meet,
       as the specification words them *)

Section AsSpecified.

Context {W : World}.

(** Fewer than three accepted views: the run fails and the solver is not
    called. *)
Definition min_views_guard (cfg : Config) : Prop :=
  forall pts s,
    pattern_points (pattern_size cfg) = inr pts ->
    sampling cfg pts = Exited s ->
    used_frames s < 3 ->
    raises (calibrate cfg) /\ solver_calls (log (final (calibrate cfg))) = [].

(** Two accepted frames of different sizes: the run fails and the solver is
    not called. *)
Definition dimension_guard (cfg : Config) : Prop :=
  forall i g j g',
    In (i, g) (accepted (log (final (calibrate cfg)))) ->
    In (j, g') (accepted (log (final (calibrate cfg)))) ->
    shape g <> shape g' ->
    raises (calibrate cfg) /\ solver_calls (log (final (calibrate cfg))) = [].




End AsSpecified.

(** ** The names of the debug images (line 67) *)

Fixpoint zeros (n : nat) : string :=
  match n with
  | O => EmptyString
  | S n' => String "0" (zeros n')
  end.

(** The digits, padded with zeros on the left up to [width] characters. *)
Definition zero_pad (width : nat) (digits : string) : string :=
  (zeros (width - String.length digits) ++ digits)%string.

(** [str(n)] for a natural number: its decimal digits. *)
Definition decimal (n : N) : string :=
  NilEmpty.string_of_uint (N.to_uint n).

(** ['%04d' % i]: the sign counts in the width and the zeros follow it. *)
Definition format_04d (i : Z) : string :=
  if i <? 0 then String "-" (zero_pad 3 (decimal (Z.abs_N i)))
  else zero_pad 4 (decimal (Z.abs_N i)).

(** ['%04d.png' % frame] *)
Definition debug_name (frame : Z) : string :=
  (format_04d frame ++ ".png")%string.

(** ** The run, frame by frame *)

Section Frames.

Context {W : World}.

(** Whether the detector finds the pattern on the frame [img] (line 50),
    and the corners that lines 53-55 keep for it. *)
Definition found_on (cfg : Config) (img : Img) : bool :=
  fst (findChessboardCorners (cvtColor img) (pattern_size cfg)).

Definition refined (cfg : Config) (img : Img) : Corners :=
  cornerSubPix (cvtColor img)
    (snd (findChessboardCorners (cvtColor img) (pattern_size cfg))).

(** Lines 47-62 for the frame [img] of index [i]. *)
Definition detect_events (cfg : Config) (i : Z) (img : Img) : list event :=
  [Stdout (Searching i); Detect i (cvtColor img)]
  ++ (if found_on cfg img
      then [SubPix i (cvtColor img); Stdout MsgOk]
      else [Stdout MsgNotFound]).

(** The calls of an iteration that reads the frame at position [k] and
    goes on to the next one. *)
Definition frame_events (cfg : Config) (k : nat) : list event :=
  match frame_image cfg k with
  | None => []
  | Some img =>
      Read (Z.of_nat k)
      :: (if sampled cfg (Z.of_nat k)
          then detect_events cfg (Z.of_nat k) img
               ++ debug_events cfg (Z.of_nat k) (found_on cfg img)
          else [])
  end.

(** The calls of the iterations that read the first [n] frames. *)
Definition trace (cfg : Config) (n : nat) : list event :=
  flat_map (frame_events cfg) (seq 0 n).

(** The calls of the iteration that line 60 leaves. *)
Definition stop_events (cfg : Config) (i : Z) (img : Img) (used : Z)
  : list event :=
  Read i :: detect_events cfg i img ++ [Stdout (MsgFound used)].

(** What the frame at position [k] adds to [img_points]. *)
Definition frame_views (cfg : Config) (k : nat) : list ImgEntry :=
  match frame_image cfg k with
  | None => []
  | Some img =>
      if sampled cfg (Z.of_nat k) && found_on cfg img
      then [reshape_1 (refined cfg img)]
      else []
  end.

Definition views (cfg : Config) (n : nat) : list ImgEntry :=
  flat_map (frame_views cfg) (seq 0 n).


(** What is printed. *)
Definition stdout (l : list event) : list message :=
  flat_map (fun e => match e with Stdout m => [m] | _ => [] end) l.

(** The outcome of the detection on a frame offered to the detector. *)
Definition detected (cfg : Config) (ig : Z * Img) : bool :=
  fst (findChessboardCorners (snd ig) (pattern_size cfg)).

(** The two messages printed for a frame offered to the detector. *)
Definition report (cfg : Config) (ig : Z * Img) : list message :=
  [Searching (fst ig); if detected cfg ig then MsgOk else MsgNotFound].

(** The debug image of a frame offered to the detector. *)
Definition debug_tag (cfg : Config) (d : string) (ig : Z * Img)
  : string * Z * bool :=
  (d, fst ig, detected cfg ig).

(** A frame offered to the detector is the grayscale version of the frame
    that the source holds at its index. *)
Definition source_frame (cfg : Config) (ig : Z * Img) : Prop :=
  0 <= fst ig /\
  exists img,
    frame_image cfg (Z.to_nat (fst ig)) = Some img /\ snd ig = cvtColor img.

(** The debug images written: directory, frame index, detection outcome. *)
Definition debug_images (l : list event) : list (string * Z * bool) :=
  flat_map (fun e => match e with
                     | DebugImage d i b => [(d, i, b)]
                     | _ => []
                     end) l.

(** The calibration files written. *)
Definition yaml_files (l : list event) : list (string * Calibration Num) :=
  flat_map (fun e => match e with
                     | YamlFile p c => [(p, c)]
                     | _ => []
                     end) l.

(** The same run with another stride. *)
Definition with_framestep (cfg : Config) (n : Z) : Config :=
  mkConfig (source cfg) (output cfg) (pattern_size cfg) (debug_dir cfg)
           (corners_f cfg) n (max_frames cfg).

(** What holds of the log and of [img_points] whenever an iteration
    starts. *)
Record frames_inv (cfg : Config) (s : state) : Prop := {
  inv_log : log s = trace cfg (Z.to_nat (frame s + 1));
  inv_views : img_points s = views cfg (Z.to_nat (frame s + 1));
  inv_limit : forall m, max_frames cfg = Some m -> used_frames s < Z.max 1 m;
  inv_first : zero_stride cfg = true -> s = init }.

(** The loop was left by line 37 or 43: the source is exhausted. *)
Definition ran_out (cfg : Config) (s : state) : Prop :=
  frame s = Z.of_nat (source_length cfg) /\
  log s = trace cfg (source_length cfg) /\
  img_points s = views cfg (source_length cfg) /\
  forall m, max_frames cfg = Some m -> used_frames s < Z.max 1 m.

(** The loop was left by line 60, on the frame of index [frame s]. *)
Definition cut_short (cfg : Config) (s : state) : Prop :=
  exists img m,
    0 <= frame s /\
    frame_image cfg (Z.to_nat (frame s)) = Some img /\
    sampled cfg (frame s) = true /\
    found_on cfg img = true /\
    max_frames cfg = Some m /\
    used_frames s = Z.max 1 m /\
    log s = trace cfg (Z.to_nat (frame s))
            ++ stop_events cfg (frame s) img (used_frames s) /\
    img_points s = views cfg (S (Z.to_nat (frame s))).

End Frames.

(** ** A small world to run the program in

    An image is its shape and whether the chessboard is visible on it; the
    detector reports the chessboard when it is visible, with one corner per
    pattern point; the solver accepts whatever it is given. *)

Module Demo.

Definition demo_corners (ps : Z * Z) : list (Z * Z) :=
  map (fun i => (i, i)) (range (fst ps * snd ps)).

Definition vga : Z * Z * bool := (480, 640, true).
Definition qvga : Z * Z * bool := (240, 320, true).
Definition blank : Z * Z * bool := (240, 320, false).

Definition demo_calibration : Calibration Z := mkCalibration Z 0 [] [] [] [].

Definition world : World := {|
  Img := Z * Z * bool;
  Num := Z;
  glob := fun _ => [];
  VideoCapture := fun _ => [];
  imread := fun p => if String.eqb p "vga.png"%string then vga
                     else if String.eqb p "qvga.png"%string then qvga
                     else blank;
  cvtColor := fun img => img;
  shape := fun img => fst img;
  findChessboardCorners :=
    fun img ps => (snd img, if snd img then demo_corners ps else []);
  cornerSubPix := fun _ c => c;
  calibrateCamera := fun _ _ _ => Some demo_calibration |}.

Definition config (src : Source (W := world)) (ps : Z * Z) (step : Z)
    (m : option Z) : Config (W := world) :=
  mkConfig src "out.yaml"%string ps None (Some "corners.pkl"%string) step m.

(** No frame at all. *)
Definition empty_run : Config (W := world) :=
  config (Glob (W := world) []) (7, 4) 20 None.

(** Two images of different sizes, the chessboard visible on both. *)
Definition mixed_sizes : Config (W := world) :=
  config (Glob (W := world) ["vga.png"%string; "qvga.png"%string]) (7, 4) 20
         None.

(** A one by one pattern and a video of one frame. *)
Definition tiny_pattern : Config (W := world) :=
  config (Capture (W := world) [vga]) (1, 1) 20 None.

(** A video of hundred frames, the chessboard visible on each. *)
Definition hundred : list (Z * Z * bool) := repeat vga 100.

Definition first_only : Config (W := world) :=
  config (Capture (W := world) hundred) (7, 4) 20 (Some 1).


(** The same video with a stride of zero, and with a negative pattern size. *)
Definition zero_step : Config (W := world) :=
  config (Capture (W := world) hundred) (7, 4) 0 None.

Definition negative_pattern : Config (W := world) :=
  config (Capture (W := world) hundred) (-7, -4) 20 None.


(** An accepted frame followed by a smaller one without chessboard. *)
Definition then_blank : Config (W := world) :=
  config (Glob (W := world) ["vga.png"%string; "none.png"%string]) (7, 4) 20
         (Some 5).

(** Two images of one size, the chessboard visible on both. *)
Definition two_views : Config (W := world) :=
  config (Glob (W := world) ["vga.png"%string; "vga.png"%string]) (7, 4) 20
         None.

(** One image, without chessboard. *)
Definition blank_only : Config (W := world) :=
  config (Glob (W := world) ["none.png"%string]) (7, 4) 20 None.

Definition pts74 : list point3 :=
  match pattern_points (7, 4) with inr l => l | inl _ => [] end.

(** Stride 20 over hundred frames, at most two views, debug images. *)
Definition debugged : Config (W := world) :=
  mkConfig (Capture (W := world) hundred) "out.yaml"%string (7, 4)
           (Some "dbg"%string) None 20 (Some 2).

End Demo.

(** * Properties *)

(** ** The pattern points *)

Lemma range_length (n : Z) : length (range n) = Z.to_nat n.
Proof. unfold range. now rewrite length_map, length_seq. Qed.



Lemma range_succ (n : nat) :
  range (Z.of_nat (S n)) = range (Z.of_nat n) ++ [Z.of_nat n].
Proof.
  unfold range. rewrite !Nat2Z.id, seq_S, map_app. reflexivity.
Qed.


Lemma assign_xy_zeros (b : list (Z * Z)) :
  assign_xy (repeat (0, 0, 0) (length b)) b
  = inr (map (fun p => (fst p, snd p, 0)) b).
Proof.
  induction b as [| [x y] b IH]; simpl; [reflexivity |].
  now rewrite IH.
Qed.

Lemma flat_map_length_const {A B : Type} (f : A -> list B) (n : nat)
    (l : list A) :
  (forall a, length (f a) = n) -> length (flat_map f l) = (length l * n)%nat.
Proof.
  intros Hf. induction l as [| a l IH]; simpl; [reflexivity |].
  rewrite length_app, Hf, IH. reflexivity.
Qed.

Lemma grid_length (c r : Z) :
  0 <= c -> 0 <= r -> length (grid c r) = Z.to_nat (c * r).
Proof.
  intros Hc Hr. unfold grid.
  rewrite (flat_map_length_const _ (Z.to_nat c)).
  - rewrite range_length. lia.
  - intros a. now rewrite length_map, range_length.
Qed.

Lemma pattern_points_grid (c r : Z) :
  0 <= c -> 0 <= r -> pattern_points (c, r) = inr (grid c r).
Proof.
  intros Hc Hr. unfold pattern_points, np_zeros3, np_prod, np_indices_T_reshape.
  simpl fst; simpl snd.
  destruct (Z.ltb_spec (c * r) 0); [nia |].
  destruct (Z.ltb_spec c 0); [lia |].
  destruct (Z.ltb_spec r 0); [lia |]. simpl orb.
  set (idx := flat_map _ _).
  assert (Hlen : Z.to_nat (c * r) = length idx).
  { unfold idx. rewrite (flat_map_length_const _ (Z.to_nat c)).
    - rewrite range_length. lia.
    - intros a. now rewrite length_map, range_length. }
  rewrite Hlen, assign_xy_zeros.
  assert (Hgrid : map (fun p => (fst p, snd p, 0)) idx = grid c r).
  { unfold idx, grid. rewrite !flat_map_concat_map, concat_map, !map_map.
    apply f_equal, map_ext. intros j. rewrite map_map. reflexivity. }
  now rewrite Hgrid.
Qed.

Lemma pattern_points_negative (ps : Z * Z) :
  fst ps < 0 \/ snd ps < 0 -> pattern_points ps = inl ValueError.
Proof.
  intros Hneg. unfold pattern_points, np_zeros3, np_indices_T_reshape.
  destruct (Z.ltb_spec (np_prod ps) 0); [reflexivity |].
  destruct (Z.ltb_spec (fst ps) 0); [reflexivity |].
  destruct (Z.ltb_spec (snd ps) 0); [reflexivity | lia].
Qed.




(** ** The log observers *)

Section Theory.

Context {W : World}.

Lemma read_frames_app (l l' : list event) :
  read_frames (l ++ l') = read_frames l ++ read_frames l'.
Proof. apply flat_map_app. Qed.

Lemma offered_app (l l' : list event) :
  offered (l ++ l') = offered l ++ offered l'.
Proof. apply flat_map_app. Qed.

Lemma offered_frames_app (l l' : list event) :
  offered_frames (l ++ l') = offered_frames l ++ offered_frames l'.
Proof. unfold offered_frames. now rewrite offered_app, map_app. Qed.

Lemma accepted_app (l l' : list event) :
  accepted (l ++ l') = accepted l ++ accepted l'.
Proof. apply flat_map_app. Qed.

Lemma solver_calls_app (l l' : list event) :
  solver_calls (l ++ l') = solver_calls l ++ solver_calls l'.
Proof. apply flat_map_app. Qed.

Lemma pickle_files_app (l l' : list event) :
  pickle_files (l ++ l') = pickle_files l ++ pickle_files l'.
Proof. apply flat_map_app. Qed.

Lemma last_shape_app_nil (l l' : list event) :
  offered l' = [] -> last_shape (l ++ l') = last_shape l.
Proof.
  intros Hl'. unfold last_shape. now rewrite offered_app, Hl', app_nil_r.
Qed.

Lemma last_shape_snoc (l l' : list event) (i : Z) (g : Img) :
  offered l' = [(i, g)] -> last_shape (l ++ l') = shape g.
Proof.
  intros Hl'. unfold last_shape. now rewrite offered_app, Hl', rev_app_distr.
Qed.

Lemma debug_events_quiet (cfg : Config) (i : Z) (b : bool) :
  read_frames (debug_events cfg i b) = [] /\
  offered (debug_events cfg i b) = [] /\
  accepted (debug_events cfg i b) = [] /\
  solver_calls (debug_events cfg i b) = [] /\
  pickle_files (debug_events cfg i b) = [].
Proof. unfold debug_events. destruct (debug_dir cfg); repeat split. Qed.

(** ** One frame offered to the detector *)

Ltac unfold_state :=
  unfold debug, debug_events, emit, set_shape, incr_frame, advance_capture,
    accept;
  cbn [obj_points img_points h w frame used_frames cap_pos log].

Section Examine.

Variable cfg : Config.
Variable pts : list point3.

(** The pattern is not found: the frame leaves its shape and three
    entries in the log, nothing else. *)
Lemma examine_not_found (img : Img) (s : state) :
  fst (findChessboardCorners (cvtColor img) (pattern_size cfg)) = false ->
  examine cfg pts img s = Next (rejected_state cfg img s).
Proof.
  intros Hnf. unfold examine, rejected_state. rewrite Hnf.
  destruct (debug_dir cfg) eqn:Hd; unfold_state; rewrite Hd; unfold_state;
    rewrite <- ?app_assoc; reflexivity.
Qed.

Lemma examine_found (img : Img) (s : state) :
  fst (findChessboardCorners (cvtColor img) (pattern_size cfg)) = true ->
  examine cfg pts img s
  = if threshold_met cfg s
    then Break (accepted_state cfg pts img s
                  [Stdout (MsgFound (used_frames s + 1))])
    else Next (accepted_state cfg pts img s
                 (debug_events cfg (frame s) true)).
Proof.
  intros Hf. unfold examine. rewrite Hf.
  unfold max_reached, threshold_met, accepted_state.
  destruct (max_frames cfg) as [m |]; unfold_state.
  - destruct (m <=? used_frames s + 1); [| destruct (debug_dir cfg)];
      unfold_state; rewrite <- ?app_assoc; reflexivity.
  - destruct (debug_dir cfg); unfold_state; rewrite <- ?app_assoc;
      reflexivity.
Qed.

End Examine.

(** ** One iteration of the loop *)

Section Loop.

Variable cfg : Config.
Variable pts : list point3.

Lemma range_snoc (n : Z) : 0 <= n -> range (n + 1) = range n ++ [n].
Proof.
  intros Hn.
  replace (n + 1) with (Z.of_nat (S (Z.to_nat n))) by lia.
  rewrite range_succ, Z2Nat.id by assumption. reflexivity.
Qed.

Lemma frame_image_length (k : nat) :
  frame_image cfg k = None <-> (source_length cfg <= k)%nat.
Proof.
  unfold frame_image, source_length. destruct (source cfg) as [files | frames].
  - rewrite <- nth_error_None. destruct (nth_error files k); simpl;
      split; congruence.
  - apply nth_error_None.
Qed.

(** The body, by cases on what the source holds at the next position. *)
Lemma body_cases (s : state) :
  pos_ok cfg s ->
  body cfg pts s
  = match frame_image cfg (Z.to_nat (frame s + 1)) with
    | None => Break (incr_frame s)
    | Some img =>
        if zero_stride cfg then Raise ZeroDivisionError (stepped cfg s)
        else if sampled cfg (frame s + 1)
             then examine cfg pts img (stepped cfg s)
             else Next (stepped cfg s)
    end.
Proof.
  intros (Hlo & Hhi & Hcap).
  unfold body, frame_image, zero_stride, sampled, stepped, source_length in *.
  destruct (source cfg) as [files | frames].
  - cbn [frame incr_frame].
    destruct (Z.eqb_spec (frame s + 1) (Z.of_nat (length files))) as [He | Hne].
    + rewrite He, Nat2Z.id.
      now rewrite (proj2 (nth_error_None files (length files))) by lia.
    + unfold py_index. destruct (Z.ltb_spec (frame s + 1) 0); [lia |].
      destruct (nth_error files (Z.to_nat (frame s + 1))) as [path |] eqn:Hn.
      * reflexivity.
      * apply nth_error_None in Hn. lia.
  - cbn [cap_pos incr_frame].
    replace (Z.to_nat (frame s + 1)) with (cap_pos s) by lia.
    destruct (nth_error frames (cap_pos s)) as [img |]; [| reflexivity].
    unfold py_mod, multiple_of. cbn [frame emit advance_capture incr_frame].
    destruct (framestep cfg =? 0); [reflexivity |].
    destruct ((frame s + 1) mod framestep cfg =? 0); reflexivity.
Qed.

(** *** The accumulated data *)

Lemma quiet_found (n : Z) : quiet [Stdout (MsgFound n)].
Proof. repeat split. Qed.

Lemma quiet_debug (i : Z) (b : bool) : quiet (debug_events cfg i b).
Proof. apply debug_events_quiet. Qed.

Lemma data_inv_init : data_inv cfg pts init.
Proof. constructor; cbn; try reflexivity; constructor. Qed.

Lemma data_inv_incr (s : state) :
  data_inv cfg pts s -> data_inv cfg pts (incr_frame s).
Proof. intros [H1 H2 H3 H4 H5 H6 Hc H7 H8]. constructor; assumption. Qed.

Lemma data_inv_stepped (s : state) :
  data_inv cfg pts s -> data_inv cfg pts (stepped cfg s).
Proof.
  intros [H1 H2 H3 H4 H5 H6 Hc H7 H8].
  constructor; cbn [stepped obj_points img_points h w used_frames log];
    try assumption.
  - now rewrite last_shape_app_nil.
  - now rewrite accepted_app, app_nil_r.
  - now rewrite offered_app, app_nil_r.
  - now rewrite solver_calls_app, app_nil_r.
  - now rewrite pickle_files_app, app_nil_r.
Qed.

Lemma data_inv_rejected (img : Img) (s : state) :
  data_inv cfg pts s ->
  frame_image cfg (Z.to_nat (frame s)) = Some img ->
  data_inv cfg pts (rejected_state cfg img s).
Proof.
  intros [H1 H2 H3 H4 H5 H6 Hc H7 H8] Himg.
  destruct (quiet_debug (frame s) false) as (_ & Qo & Qa & Qs & Qp).
  constructor;
    cbn [rejected_state obj_points img_points h w used_frames log];
    try assumption.
  - rewrite <- surjective_pairing.
    rewrite (last_shape_snoc _ _ (frame s) (cvtColor img)); [reflexivity |].
    rewrite offered_app, Qo. reflexivity.
  - rewrite !accepted_app, Qa. cbn. now rewrite app_nil_r.
  - rewrite !offered_app, Qo. cbn. apply Forall_app. split; [assumption |].
    constructor; [| constructor]. now exists img.
  - rewrite !solver_calls_app, Qs. cbn. now rewrite app_nil_r.
  - rewrite !pickle_files_app, Qp. cbn. now rewrite app_nil_r.
Qed.

Lemma data_inv_accepted (img : Img) (s : state) (tail : list event) :
  data_inv cfg pts s ->
  frame_image cfg (Z.to_nat (frame s)) = Some img ->
  fst (findChessboardCorners (cvtColor img) (pattern_size cfg)) = true ->
  quiet tail ->
  data_inv cfg pts (accepted_state cfg pts img s tail).
Proof.
  intros [H1 H2 H3 H4 H5 H6 Hc H7 H8] Himg Hf (_ & Qo & Qa & Qs & Qp).
  constructor;
    cbn [accepted_state obj_points img_points h w used_frames log].
  - rewrite !length_app. cbn. lia.
  - rewrite length_app. cbn. lia.
  - apply Forall_app. split; [assumption | now constructor].
  - rewrite <- surjective_pairing.
    rewrite (last_shape_snoc _ _ (frame s) (cvtColor img)); [reflexivity |].
    rewrite offered_app, Qo. reflexivity.
  - rewrite !accepted_app, Qa. cbn. rewrite length_app. cbn. lia.
  - rewrite !offered_app, Qo. cbn. apply Forall_app. split; [assumption |].
    constructor; [| constructor]. now exists img.
  - apply Forall_app. split; [assumption |].
    constructor; [| constructor]. now exists img.
  - rewrite !solver_calls_app, Qs. cbn. now rewrite app_nil_r.
  - rewrite !pickle_files_app, Qp. cbn. now rewrite app_nil_r.
Qed.

(** *** Position and progress *)

Lemma iter_inv_init : iter_inv cfg init.
Proof.
  constructor; cbn; try reflexivity.
  - unfold pos_ok. cbn. destruct (source cfg); lia.
  - intros m _ Hm. lia.
Qed.

Lemma iter_inv_advance (s s' : state) (img : Img) :
  iter_inv cfg s ->
  frame_image cfg (Z.to_nat (frame s + 1)) = Some img ->
  frame s' = frame s + 1 ->
  cap_pos s' = cap_pos (stepped cfg s) ->
  read_frames (log s') = read_frames (log s) ++ [frame s + 1] ->
  offered_frames (log s')
  = offered_frames (log s)
    ++ (if sampled cfg (frame s + 1) then [frame s + 1] else []) ->
  (forall m, max_frames cfg = Some m -> 1 <= m -> used_frames s' < m) ->
  iter_inv cfg s'.
Proof.
  intros [(Hlo & Hhi & Hcap) Hread Hoff Hbelow] Himg Hfr Hcp Hr Ho Hb.
  assert (Hlt : (Z.to_nat (frame s + 1) < source_length cfg)%nat).
  { destruct (Nat.ltb_spec (Z.to_nat (frame s + 1)) (source_length cfg));
      [assumption |].
    apply frame_image_length in H. congruence. }
  constructor.
  - unfold pos_ok. rewrite Hfr, Hcp. repeat split; try lia.
    unfold stepped. cbn [cap_pos]. destruct (source cfg); lia.
  - rewrite Hr, Hread, Hfr, (range_snoc (frame s + 1)) by lia. reflexivity.
  - rewrite Ho, Hoff, Hfr, (range_snoc (frame s + 1)), filter_app by lia.
    reflexivity.
  - assumption.
Qed.

Lemma body_step (s : state) :
  data_inv cfg pts s -> iter_inv cfg s ->
  match body cfg pts s with
  | Next s' => data_inv cfg pts s' /\ iter_inv cfg s'
  | Break s' => data_inv cfg pts s' /\ exit_inv cfg s'
  | Raise e s' =>
      e = ZeroDivisionError /\ zero_stride cfg = true /\ data_inv cfg pts s'
  end.
Proof.
  intros Hd Hi. rewrite body_cases by apply Hi.
  destruct (frame_image cfg (Z.to_nat (frame s + 1))) as [img |] eqn:Himg.
  - pose proof (data_inv_stepped s Hd) as Hd'.
    destruct (zero_stride cfg);
      [split; [reflexivity | split; [reflexivity | exact Hd']] |].
    assert (Himg' : frame_image cfg (Z.to_nat (frame (stepped cfg s)))
                    = Some img) by exact Himg.
    destruct (sampled cfg (frame s + 1)) eqn:Hs.
    + destruct (fst (findChessboardCorners (cvtColor img) (pattern_size cfg)))
        eqn:Hf.
      * rewrite examine_found by assumption.
        destruct (threshold_met cfg (stepped cfg s)) eqn:Ht.
        -- split; [apply data_inv_accepted; auto using quiet_found |].
           destruct Hi as [(Hlo & Hhi & Hcap) Hread Hoff Hbelow].
           unfold threshold_met in Ht. cbn [stepped used_frames] in Ht.
           destruct (max_frames cfg) as [m |] eqn:Hm; [| discriminate].
           apply Z.leb_le in Ht.
           assert (Hlt : (Z.to_nat (frame s + 1) < source_length cfg)%nat).
           { destruct (Nat.ltb_spec (Z.to_nat (frame s + 1))
                                    (source_length cfg)); [assumption |].
             apply frame_image_length in H. congruence. }
           assert (Hr : read_frames
                          (log (accepted_state cfg pts img (stepped cfg s)
                             [Stdout (MsgFound (used_frames (stepped cfg s) + 1))]))
                        = range (frame s + 1 + 1)).
           { cbn [accepted_state stepped log frame].
             rewrite !read_frames_app, Hread, (range_snoc (frame s + 1)) by lia.
             cbn.
             now rewrite app_nil_r. }
           constructor.
           ++ rewrite Hr. cbn [accepted_state stepped log frame].
              rewrite !offered_frames_app, Hoff, (range_snoc (frame s + 1)),
                filter_app by lia.
              cbn. rewrite Hs, ?app_nil_r. reflexivity.
           ++ right. exists m, ((log s ++ [Read (frame s + 1)])
                                ++ [Stdout (Searching (frame s + 1))]),
                       (cvtColor img).
              split; [exact Hm |].
              cbn [accepted_state stepped used_frames frame log] in *.
              split; [exact Ht |].
              split; [intros Hm1; specialize (Hbelow m eq_refl Hm1); lia |].
              split; [lia |].
              split; [exact Hr |].
              rewrite <- !app_assoc. reflexivity.
        -- split; [apply data_inv_accepted; auto using quiet_debug |].
           destruct (quiet_debug (frame (stepped cfg s)) true)
             as (Qr & Qo & _).
           apply (iter_inv_advance s _ img Hi Himg); try reflexivity.
           ++ cbn [accepted_state stepped log].
              rewrite !read_frames_app, Qr. cbn. now rewrite app_nil_r.
           ++ cbn [accepted_state stepped log].
              rewrite !offered_frames_app. unfold offered_frames at 4.
              rewrite Qo, Hs. cbn. now rewrite app_nil_r.
           ++ intros m Hm Hm1. unfold threshold_met in Ht. rewrite Hm in Ht.
              apply Z.leb_gt in Ht. exact Ht.
      * rewrite examine_not_found by assumption.
        split; [now apply data_inv_rejected |].
        destruct (quiet_debug (frame (stepped cfg s)) false)
          as (Qr & Qo & _).
        apply (iter_inv_advance s _ img Hi Himg); try reflexivity.
        -- cbn [rejected_state stepped log].
           rewrite !read_frames_app, Qr. cbn. now rewrite app_nil_r.
        -- cbn [rejected_state stepped log].
           rewrite !offered_frames_app. unfold offered_frames at 4.
           rewrite Qo, Hs. cbn. now rewrite app_nil_r.
        -- exact (inv_below _ _ Hi).
    + split; [assumption |].
      apply (iter_inv_advance s _ img Hi Himg); try reflexivity.
      * cbn [stepped log]. now rewrite read_frames_app.
      * cbn [stepped log]. rewrite offered_frames_app, Hs. reflexivity.
      * exact (inv_below _ _ Hi).
  - split; [now apply data_inv_incr |].
    destruct Hi as [(Hlo & Hhi & Hcap) Hread Hoff Hbelow].
    apply frame_image_length in Himg.
    constructor; cbn [incr_frame log].
    + now rewrite Hread.
    + left. unfold exhausted. cbn [incr_frame log frame used_frames].
      assert (He : frame s + 1 = Z.of_nat (source_length cfg)) by lia.
      rewrite <- He. repeat split; assumption.
Qed.

Lemma body_next_frame (s s' : state) :
  pos_ok cfg s -> body cfg pts s = Next s' ->
  frame s' = frame s + 1 /\
  frame_image cfg (Z.to_nat (frame s + 1)) <> None.
Proof.
  intros Hpos. rewrite body_cases by assumption.
  destruct (frame_image cfg (Z.to_nat (frame s + 1))) as [img |];
    [| discriminate].
  destruct (zero_stride cfg); [discriminate |].
  destruct (sampled cfg (frame s + 1)).
  - destruct (fst (findChessboardCorners (cvtColor img) (pattern_size cfg)))
      eqn:Hf.
    + rewrite examine_found by assumption.
      destruct (threshold_met cfg (stepped cfg s)); [discriminate |].
      intros [= <-]. now split.
    + rewrite examine_not_found by assumption. intros [= <-]. now split.
  - intros [= <-]. now split.
Qed.

(** *** The whole loop *)

Lemma iterating_inv (s : state) :
  iterating cfg pts s -> data_inv cfg pts s /\ iter_inv cfg s.
Proof.
  induction 1 as [| s s' _ [Hd Hi] Hb].
  - split; [apply data_inv_init | apply iter_inv_init].
  - pose proof (body_step s Hd Hi) as Hstep. now rewrite Hb in Hstep.
Qed.

Lemma visited_data_inv (s : state) :
  visited cfg pts s -> data_inv cfg pts s.
Proof.
  intros [Hit | (s0 & Hit & Hb)].
  - now apply iterating_inv.
  - destruct (iterating_inv s0 Hit) as [Hd Hi].
    pose proof (body_step s0 Hd Hi) as Hstep. rewrite Hb in Hstep.
    apply Hstep.
Qed.

(** The loop is left within one iteration per remaining frame, and one
    more. *)
Lemma while_true_leaves (fuel : nat) (s : state) :
  iterating cfg pts s ->
  (source_length cfg - Z.to_nat (frame s + 1) < fuel)%nat ->
  match while_true cfg pts fuel s with
  | Exited s' => exists s0, iterating cfg pts s0 /\ body cfg pts s0 = Break s'
  | Raised e s' =>
      exists s0, iterating cfg pts s0 /\ body cfg pts s0 = Raise e s'
  | Running _ => False
  end.
Proof.
  revert s. induction fuel as [| fuel IH]; intros s Hit Hfuel; [lia |].
  cbn [while_true]. destruct (body cfg pts s) as [s' | s' | e s'] eqn:Hb.
  - destruct (iterating_inv s Hit) as [_ [Hpos _ _ _]].
    destruct (body_next_frame s s' Hpos Hb) as [Hfr Hsome].
    assert (Hlt : (Z.to_nat (frame s + 1) < source_length cfg)%nat).
    { destruct (Nat.ltb_spec (Z.to_nat (frame s + 1)) (source_length cfg));
        [assumption |].
      now apply frame_image_length in H. }
    apply IH; [now apply (iterating_next cfg pts s) |].
    rewrite Hfr. destruct Hpos as (Hlo & _). lia.
  - now exists s.
  - now exists s.
Qed.

(** The sampling loop always terminates; it is left by [break] with the
    invariants established, or by the [ZeroDivisionError] of a zero
    stride. *)
Lemma sampling_outcome :
  match sampling cfg pts with
  | Exited s => visited cfg pts s /\ data_inv cfg pts s /\ exit_inv cfg s
  | Raised e s =>
      e = ZeroDivisionError /\ zero_stride cfg = true /\ data_inv cfg pts s
  | Running _ => False
  end.
Proof.
  unfold sampling.
  pose proof (while_true_leaves (S (source_length cfg)) init
                (iterating_init cfg pts)) as Hrun.
  cbn [frame init] in Hrun. specialize (Hrun ltac:(cbn; lia)).
  destruct (while_true cfg pts (S (source_length cfg)) init)
    as [s | e s | s]; [| | assumption];
    destruct Hrun as (s0 & Hit & Hb);
    destruct (iterating_inv s0 Hit) as [Hd Hi];
    pose proof (body_step s0 Hd Hi) as Hstep; rewrite Hb in Hstep.
  - split; [right; now exists s0 | exact Hstep].
  - exact Hstep.
Qed.

Lemma sampling_visited (s : state) :
  sampling cfg pts = Exited s -> visited cfg pts s.
Proof.
  intros Hs. pose proof sampling_outcome as H. rewrite Hs in H. apply H.
Qed.

Lemma sampling_terminates (s : state) : sampling cfg pts <> Running s.
Proof.
  pose proof sampling_outcome as H. intros Heq. now rewrite Heq in H.
Qed.


End Loop.

(** ** From the loop to the solver *)

Section Run.

Variable cfg : Config.

Lemma pattern_points_inr (pts : list point3) :
  pattern_points (pattern_size cfg) = inr pts ->
  0 <= fst (pattern_size cfg) /\ 0 <= snd (pattern_size cfg) /\
  pts = grid (fst (pattern_size cfg)) (snd (pattern_size cfg)).
Proof.
  intros Hp.
  destruct (Z.ltb_spec (fst (pattern_size cfg)) 0) as [Hc | Hc].
  { rewrite pattern_points_negative in Hp by (now left). discriminate. }
  destruct (Z.ltb_spec (snd (pattern_size cfg)) 0) as [Hr | Hr].
  { rewrite pattern_points_negative in Hp by (now right). discriminate. }
  rewrite (surjective_pairing (pattern_size cfg)) in Hp.
  rewrite pattern_points_grid in Hp by assumption.
  repeat split; try assumption. congruence.
Qed.

(** What [main] does once the loop is left: the optional corners file, the
    call to the solver, the report. *)
Lemma calibrate_after_sampling (pts : list point3) (s : state) :
  pattern_points (pattern_size cfg) = inr pts ->
  sampling cfg pts = Exited s ->
  log (final (calibrate cfg))
  = log s ++ dump_events cfg s
      ++ [Stdout MsgCalibrating;
          Calibrate (obj_points s) (img_points s) (w s, h s)]
      ++ result_events cfg s /\
  (raises (calibrate cfg) <->
   calibrateCamera (obj_points s) (img_points s) (w s, h s) = None) /\
  (forall e st, calibrate cfg = Raised e st -> e = CvError).
Proof.
  intros Hp Hs. unfold calibrate. rewrite Hp, Hs.
  unfold solve, dump_corners, dump_events, result_events, corners_file, raises.
  destruct (corners_f cfg) as [path |];
    cbn [emit obj_points img_points h w log];
    destruct (calibrateCamera (obj_points s) (img_points s) (w s, h s))
      as [c |]; cbn [final emit log].
  all: split; [rewrite <- ?app_assoc; reflexivity |].
  all: split; [split |].
  all: try (intros (e & st & Heq); discriminate Heq).
  all: try (intros Heq; discriminate Heq).
  all: try (intros _; eexists; eexists; reflexivity).
  all: intros e st Heq; try discriminate Heq.
  all: now inversion Heq.
Qed.

Lemma solver_called_once (pts : list point3) (s : state) :
  pattern_points (pattern_size cfg) = inr pts ->
  sampling cfg pts = Exited s ->
  solver_calls (log (final (calibrate cfg))) = [solver_args s] /\
  pickle_files (log (final (calibrate cfg)))
  = match corners_f cfg with
    | Some path => [(path, corners_file s)]
    | None => []
    end.
Proof.
  intros Hp Hs.
  destruct (calibrate_after_sampling pts s Hp Hs) as (Hlog & _).
  pose proof (sampling_outcome cfg pts) as Hout. rewrite Hs in Hout.
  destruct Hout as (_ & Hd & _).
  rewrite Hlog, !solver_calls_app, !pickle_files_app.
  rewrite (inv_solver _ _ _ Hd), (inv_pickle _ _ _ Hd).
  unfold dump_events, result_events.
  destruct (corners_f cfg);
    destruct (calibrateCamera (obj_points s) (img_points s) (w s, h s));
    split; reflexivity.
Qed.

Lemma body_without_corners_f (pts : list point3) (s : state) :
  body (without_corners_f cfg) pts s = body cfg pts s.
Proof. reflexivity. Qed.

Lemma sampling_without_corners_f (pts : list point3) :
  sampling (without_corners_f cfg) pts = sampling cfg pts.
Proof.
  unfold sampling.
  change (source_length (without_corners_f cfg)) with (source_length cfg).
  generalize (S (source_length cfg)) (init (W := W)).
  induction n as [| n IH]; intros s; [reflexivity |].
  cbn [while_true]. rewrite body_without_corners_f.
  destruct (body cfg pts s); [apply IH | reflexivity | reflexivity].
Qed.

End Run.

End Theory.

(** * The claims of the specification *)

Section Claims.

Context {W : World}.


(** C9: whenever an iteration of the sampling loop starts, and when the
    loop is left, [obj_points] and [img_points] have the same length, which
    is [used_frames] and the number of frames accepted so far; every entry
    of [obj_points] holds [columns * rows] points, and so does every entry
    of [img_points] provided the detector, when it reports the pattern,
    returns one corner per pattern point. *)
Theorem accumulators_in_step (cfg : Config) (pts : list point3) (s : state) :
  pattern_points (pattern_size cfg) = inr pts ->
  (forall gray,
      fst (findChessboardCorners gray (pattern_size cfg)) = true ->
      length (cornerSubPix gray
                (snd (findChessboardCorners gray (pattern_size cfg))))
      = Z.to_nat (np_prod (pattern_size cfg))) ->
  visited cfg pts s ->
  length (obj_points s) = length (img_points s) /\
  Z.of_nat (length (obj_points s)) = used_frames s /\
  Z.of_nat (length (accepted (log s))) = used_frames s /\
  Forall (fun e => entry_points e = Z.to_nat (np_prod (pattern_size cfg)))
         (obj_points s) /\
  Forall (fun e => entry_points e = Z.to_nat (np_prod (pattern_size cfg)))
         (img_points s).
Proof.
  intros Hp Hdet Hs.
  pose proof (visited_data_inv cfg pts s Hs) as Hd.
  destruct (pattern_points_inr cfg pts Hp) as (Hc & Hr & ->).
  split; [exact (inv_lengths _ _ _ Hd) |].
  split; [exact (inv_used _ _ _ Hd) |].
  split; [exact (inv_accepted _ _ _ Hd) |].
  split.
  - eapply Forall_impl; [| exact (inv_entries _ _ _ Hd)].
    intros e <-. unfold entry_points, reshape_1, np_prod. cbn [concat].
    rewrite app_nil_r. now apply grid_length.
  - eapply Forall_impl; [| exact (inv_corners _ _ _ Hd)].
    intros e (img & Hf & ->). unfold entry_points, reshape_1. cbn [concat].
    rewrite app_nil_r. now apply Hdet.
Qed.

(** C6: an iteration in which the frame offered to the detector is reported
    as not showing the pattern ends normally, the loop going on with the
    next frame; [obj_points], [img_points], [used_frames] and the accepted
    frames are what they were before the iteration. *)
Theorem not_found_is_skipped (cfg : Config) (pts : list point3)
    (s : state) (img : Img) :
  iterating cfg pts s ->
  frame_image cfg (Z.to_nat (frame s + 1)) = Some img ->
  zero_stride cfg = false ->
  sampled cfg (frame s + 1) = true ->
  fst (findChessboardCorners (cvtColor img) (pattern_size cfg)) = false ->
  exists s',
    body cfg pts s = Next s' /\
    In (Detect (frame s + 1) (cvtColor img)) (log s') /\
    frame s' = frame s + 1 /\
    obj_points s' = obj_points s /\
    img_points s' = img_points s /\
    used_frames s' = used_frames s /\
    accepted (log s') = accepted (log s).
Proof.
  intros Hit Himg Hz Hs Hnf.
  destruct (iterating_inv cfg pts s Hit) as [_ [Hpos _ _ _]].
  rewrite body_cases, Himg, Hz, Hs, examine_not_found by assumption.
  eexists. split; [reflexivity |].
  cbn [rejected_state stepped frame obj_points img_points used_frames log].
  destruct (quiet_debug cfg (frame s + 1) false) as (_ & _ & Qa & _).
  repeat split.
  - apply in_or_app. right. cbn. auto.
  - rewrite !accepted_app, Qa. cbn. now rewrite !app_nil_r.
Qed.

(** C10: the size handed to the solver is [(w, h)] of the last frame that
    the loop offered to the detector, whether or not the pattern was found
    on it, and not that of the last accepted frame; when no frame was read
    it is [(0, 0)]. *)
Theorem solver_size_is_last_shape (cfg : Config)
    (objs : list ObjEntry) (imgs : list ImgEntry) (size : Z * Z) :
  In (objs, imgs, size) (solver_calls (log (final (calibrate cfg)))) ->
  size = (snd (last_shape (log (final (calibrate cfg)))),
          fst (last_shape (log (final (calibrate cfg))))) /\
  (read_frames (log (final (calibrate cfg))) = [] -> size = (0, 0)).
Proof.
  intros Hin.
  destruct (pattern_points (pattern_size cfg)) as [e | pts] eqn:Hp.
  { unfold calibrate in Hin. rewrite Hp in Hin. contradiction. }
  pose proof (sampling_outcome cfg pts) as Hout.
  destruct (sampling cfg pts) as [s | e s | s] eqn:Hs; [| | contradiction].
  - destruct Hout as (_ & Hd & Hx).
    destruct (solver_called_once cfg pts s Hp Hs) as (Hcalls & _).
    destruct (calibrate_after_sampling cfg pts s Hp Hs) as (Hlog & _).
    rewrite Hcalls in Hin. destruct Hin as [[= <- <- <-] | []].
    assert (Hlast : last_shape (log (final (calibrate cfg))) = (h s, w s)).
    { rewrite Hlog, (inv_shape _ _ _ Hd). apply last_shape_app_nil.
      unfold dump_events, result_events.
      destruct (corners_f cfg);
        destruct (calibrateCamera (obj_points s) (img_points s) (w s, h s));
        reflexivity. }
    split; [now rewrite Hlast |].
    intros Hread. rewrite Hlog, read_frames_app in Hread.
    apply app_eq_nil in Hread as [Hread _].
    pose proof (inv_shape _ _ _ Hd) as Hshape.
    assert (Hoff : offered (log s) = []).
    { pose proof (exit_offered _ _ Hx) as Hof.
      rewrite Hread in Hof. cbn in Hof. unfold offered_frames in Hof.
      now apply map_eq_nil in Hof. }
    unfold last_shape in Hshape. rewrite Hoff in Hshape. cbn in Hshape.
    now inversion Hshape.
  - destruct Hout as (_ & _ & Hd).
    unfold calibrate in Hin. rewrite Hp, Hs in Hin. cbn [final] in Hin.
    rewrite (inv_solver _ _ _ Hd) in Hin. contradiction.
Qed.

(** C8: with a corners file configured, the run writes that one file, after
    the loop and before the solver is called; it holds, in this order, the
    image points, the object points and the pair [(w, h)]; the solver is
    handed the lists and the size that the loop left, the same as in the
    run without a corners file. *)
Theorem corners_file_written (cfg : Config) (pts : list point3) (s : state)
    (path : string) :
  pattern_points (pattern_size cfg) = inr pts ->
  sampling cfg pts = Exited s ->
  corners_f cfg = Some path ->
  pickle_files (log (final (calibrate cfg)))
  = [(path, [PImgPoints (img_points s); PObjPoints (obj_points s);
             PSize (w s, h s)])] /\
  (exists post,
      log (final (calibrate cfg))
      = log s
          ++ [PickleFile path [PImgPoints (img_points s);
                               PObjPoints (obj_points s);
                               PSize (w s, h s)];
              Stdout MsgCalibrating;
              Calibrate (obj_points s) (img_points s) (w s, h s)]
          ++ post) /\
  solver_calls (log (final (calibrate cfg)))
  = [(obj_points s, img_points s, (w s, h s))] /\
  solver_calls (log (final (calibrate (without_corners_f cfg))))
  = solver_calls (log (final (calibrate cfg))).
Proof.
  intros Hp Hs Hc.
  destruct (solver_called_once cfg pts s Hp Hs) as (Hcalls & Hfiles).
  destruct (calibrate_after_sampling cfg pts s Hp Hs) as (Hlog & _).
  rewrite Hc in Hfiles.
  split; [exact Hfiles |].
  split.
  { exists (result_events cfg s). rewrite Hlog. unfold dump_events.
    rewrite Hc. reflexivity. }
  split; [exact Hcalls |].
  rewrite Hcalls.
  apply (solver_called_once (without_corners_f cfg) pts s Hp).
  now rewrite sampling_without_corners_f.
Qed.

(** C1, as the program has it: [main] does not look at the number of
    accepted views.  Whenever the sampling loop ends, with however few
    views (none, one or two included), [cv2.calibrateCamera] is called,
    once, with the lists and the size that the loop left; the run fails at
    that point exactly when that call raises, and then with its
    cv2.error. *)
Theorem solver_called_whatever_count (cfg : Config) (pts : list point3)
    (s : state) :
  pattern_points (pattern_size cfg) = inr pts ->
  sampling cfg pts = Exited s ->
  solver_calls (log (final (calibrate cfg)))
  = [(obj_points s, img_points s, (w s, h s))] /\
  Z.of_nat (length (obj_points s)) = used_frames s /\
  length (img_points s) = length (obj_points s) /\
  (raises (calibrate cfg) <->
   calibrateCamera (obj_points s) (img_points s) (w s, h s) = None) /\
  (forall e st, calibrate cfg = Raised e st -> e = CvError).
Proof.
  intros Hp Hs.
  destruct (solver_called_once cfg pts s Hp Hs) as (Hcalls & _).
  destruct (calibrate_after_sampling cfg pts s Hp Hs) as (_ & Hr & He).
  pose proof (visited_data_inv cfg pts s (sampling_visited cfg pts s Hs)) as Hd.
  split; [exact Hcalls |].
  split; [exact (inv_used _ _ _ Hd) |].
  split; [symmetry; exact (inv_lengths _ _ _ Hd) |].
  split; assumption.
Qed.

(** C2, as the program has it: a frame on which the detector reports the
    pattern is accepted whatever its size and whatever the sizes seen
    before: its corners and the object points are appended, [used_frames]
    grows by one, and [(h, w)] becomes the shape of this frame; nothing is
    compared and nothing is raised. *)
Theorem accept_ignores_size (cfg : Config) (pts : list point3) (img : Img)
    (s : state) :
  fst (findChessboardCorners (cvtColor img) (pattern_size cfg)) = true ->
  exists s',
    (examine cfg pts img s = Next s' \/ examine cfg pts img s = Break s') /\
    obj_points s' = obj_points s ++ [reshape_1 pts] /\
    img_points s'
    = img_points s
        ++ [reshape_1 (cornerSubPix (cvtColor img)
              (snd (findChessboardCorners (cvtColor img) (pattern_size cfg))))] /\
    used_frames s' = used_frames s + 1 /\
    (h s', w s') = shape (cvtColor img) /\
    accepted (log s') = accepted (log s) ++ [(frame s, cvtColor img)].
Proof.
  intros Hf. rewrite examine_found by assumption.
  destruct (quiet_debug cfg (frame s) true) as (_ & _ & Qa & _).
  destruct (threshold_met cfg s); eexists; (split; [auto |]);
    cbn [accepted_state obj_points img_points used_frames h w log];
    rewrite <- surjective_pairing, !accepted_app, ?Qa; cbn;
    rewrite ?app_nil_r; auto.
Qed.




End Claims.


Lemma accumulators_in_step_witness :
  let s := final (sampling Demo.mixed_sizes Demo.pts74) in
  length (obj_points s) = 2%nat /\ used_frames s = 2 /\
  Forall (fun e => entry_points e = 28%nat) (img_points s).
Proof.
  intros s.
  assert (Hp : pattern_points (pattern_size Demo.mixed_sizes) = inr Demo.pts74)
    by reflexivity.
  assert (Hdet : forall gray : Img (World := Demo.world),
             fst (findChessboardCorners gray (pattern_size Demo.mixed_sizes))
             = true ->
             length (cornerSubPix gray
                       (snd (findChessboardCorners gray
                               (pattern_size Demo.mixed_sizes))))
             = Z.to_nat (np_prod (pattern_size Demo.mixed_sizes))).
  { intros [hw b] Hb. cbn in Hb. subst b. reflexivity. }
  assert (Hv : visited Demo.mixed_sizes Demo.pts74 s).
  { apply sampling_visited. vm_compute. reflexivity. }
  destruct (accumulators_in_step Demo.mixed_sizes Demo.pts74 s Hp Hdet Hv)
    as (_ & Hused & _ & _ & Himg).
  split; [vm_compute; reflexivity |].
  split; [vm_compute; reflexivity |].
  exact Himg.
Defined.

Lemma not_found_is_skipped_witness :
  exists s',
    body Demo.blank_only Demo.pts74 init = Next s' /\
    used_frames s' = 0 /\ frame s' = 0.
Proof.
  destruct (not_found_is_skipped Demo.blank_only Demo.pts74 init Demo.blank
              (iterating_init _ _) eq_refl eq_refl eq_refl eq_refl)
    as (s' & Hb & _ & Hfr & _ & _ & Hu & _).
  exists s'. split; [exact Hb |]. split; [exact Hu | exact Hfr].
Defined.

Lemma solver_size_is_last_shape_witness :
  let l := log (final (calibrate Demo.then_blank)) in
  accepted l = [(0, Demo.vga)] /\
  offered l = [(0, Demo.vga); (1, Demo.blank)] /\
  (320, 240) = (snd (last_shape l), fst (last_shape l)).
Proof.
  intros l.
  split; [vm_compute; reflexivity |].
  split; [vm_compute; reflexivity |].
  exact (proj1 (solver_size_is_last_shape Demo.then_blank
                  (obj_points (final (sampling Demo.then_blank Demo.pts74)))
                  (img_points (final (sampling Demo.then_blank Demo.pts74)))
                  (320, 240)
                  ltac:(vm_compute; left; reflexivity))).
Defined.

Lemma corners_file_written_witness :
  exists s,
    sampling Demo.mixed_sizes Demo.pts74 = Exited s /\
    pickle_files (log (final (calibrate Demo.mixed_sizes)))
    = [("corners.pkl"%string,
        [PImgPoints (img_points s); PObjPoints (obj_points s);
         PSize (320, 240)])].
Proof.
  exists (final (sampling Demo.mixed_sizes Demo.pts74)).
  split; [vm_compute; reflexivity |].
  exact (proj1 (corners_file_written Demo.mixed_sizes Demo.pts74
                  (final (sampling Demo.mixed_sizes Demo.pts74))
                  "corners.pkl"%string eq_refl
                  ltac:(vm_compute; reflexivity) eq_refl)).
Defined.

(** C1: a run with two accepted views neither fails nor skips the solver. *)
Lemma min_views_guard_fails : ~ min_views_guard Demo.two_views.
Proof.
  intros Hguard.
  destruct (Hguard Demo.pts74 (final (sampling Demo.two_views Demo.pts74))
              eq_refl ltac:(vm_compute; reflexivity) ltac:(vm_compute; reflexivity))
    as [_ Hcalls].
  vm_compute in Hcalls. discriminate Hcalls.
Qed.

Lemma solver_called_whatever_count_witness :
  exists s,
    sampling Demo.two_views Demo.pts74 = Exited s /\
    used_frames s = 2 /\
    solver_calls (log (final (calibrate Demo.two_views)))
    = [(obj_points s, img_points s, (w s, h s))].
Proof.
  exists (final (sampling Demo.two_views Demo.pts74)).
  split; [vm_compute; reflexivity |].
  split; [vm_compute; reflexivity |].
  exact (proj1 (solver_called_whatever_count Demo.two_views Demo.pts74
                  (final (sampling Demo.two_views Demo.pts74)) eq_refl
                  ltac:(vm_compute; reflexivity))).
Defined.

(** C2: two accepted frames of different sizes, and the solver is called. *)
Lemma dimension_guard_fails : ~ dimension_guard Demo.mixed_sizes.
Proof.
  intros Hguard.
  destruct (Hguard 0 Demo.vga 1 Demo.qvga
              ltac:(vm_compute; left; reflexivity)
              ltac:(vm_compute; right; left; reflexivity)
              ltac:(vm_compute; discriminate))
    as [_ Hcalls].
  vm_compute in Hcalls. discriminate Hcalls.
Qed.

Lemma accept_ignores_size_witness :
  exists s',
    examine Demo.mixed_sizes Demo.pts74 Demo.qvga
      (final (while_true Demo.mixed_sizes Demo.pts74 1 init)) = Next s' /\
    used_frames s' = 2 /\ (h s', w s') = (240, 320).
Proof.
  destruct (accept_ignores_size Demo.mixed_sizes Demo.pts74 Demo.qvga
              (final (while_true Demo.mixed_sizes Demo.pts74 1 init)) eq_refl)
    as (s' & [Hn | Hb] & _ & _ & Hu & Hs & _).
  - exists s'. split; [exact Hn |]. split; [exact Hu | exact Hs].
  - vm_compute in Hb. discriminate Hb.
Defined.






(** * The run as a function of the source *)

(** ** One iteration *)

Section FrameByFrame.

Context {W : World}.


Section Steps.

Variable cfg : Config.
Variable pts : list point3.

Lemma trace_succ (n : nat) :
  trace cfg (S n) = trace cfg n ++ frame_events cfg n.
Proof.
  unfold trace. rewrite seq_S, flat_map_app. simpl. now rewrite app_nil_r.
Qed.

Lemma views_succ (n : nat) :
  views cfg (S n) = views cfg n ++ frame_views cfg n.
Proof.
  unfold views. rewrite seq_S, flat_map_app. simpl. now rewrite app_nil_r.
Qed.


Lemma used_frames_length (s : state) :
  data_inv cfg pts s -> used_frames s = Z.of_nat (length (img_points s)).
Proof.
  intros Hd. now rewrite <- (inv_lengths _ _ _ Hd), (inv_used _ _ _ Hd).
Qed.

Lemma frames_inv_init : frames_inv cfg init.
Proof.
  constructor; cbn; try reflexivity.
  intros m _. lia.
Qed.

(** One iteration, as the frame it reads determines it. *)
Lemma body_frames (s : state) :
  data_inv cfg pts s -> iter_inv cfg s -> frames_inv cfg s ->
  match body cfg pts s with
  | Next s' => frames_inv cfg s'
  | Break s' => ran_out cfg s' \/ cut_short cfg s'
  | Raise e s' => s' = stepped cfg init
  end.
Proof.
  intros Hd [(Hlo & Hhi & Hcap) _ _ _] [Hlog Hviews Hlimit Hfirst].
  pose proof (used_frames_length s Hd) as Hused.
  rewrite body_cases by (repeat split; assumption).
  set (k := Z.to_nat (frame s + 1)) in *.
  assert (Hk : Z.of_nat k = frame s + 1) by (unfold k; lia).
  assert (Hk' : Z.to_nat (frame s + 1 + 1) = S k) by (unfold k; lia).
  destruct (frame_image cfg k) as [img |] eqn:Himg.
  - destruct (zero_stride cfg) eqn:Hz; [now rewrite Hfirst |].
    destruct (sampled cfg (frame s + 1)) eqn:Hs.
    + destruct (fst (findChessboardCorners (cvtColor img) (pattern_size cfg)))
        eqn:Hf.
      * rewrite examine_found by assumption.
        destruct (threshold_met cfg (stepped cfg s)) eqn:Ht.
        -- right. unfold threshold_met in Ht. cbn [stepped used_frames] in Ht.
           destruct (max_frames cfg) as [m |] eqn:Hm; [| discriminate].
           apply Z.leb_le in Ht. specialize (Hlimit m eq_refl).
           exists img, m.
           cbn [accepted_state stepped frame used_frames log img_points].
           fold k. rewrite Himg, Hs.
           repeat split; try assumption; try lia.
           ++ rewrite Hlog. unfold stop_events, detect_events, found_on.
              rewrite Hf, <- !app_assoc. reflexivity.
           ++ rewrite views_succ, Hviews. unfold frame_views, found_on.
              now rewrite Himg, Hk, Hs, Hf.
        -- constructor;
             cbn [accepted_state stepped frame used_frames log img_points].
           ++ rewrite Hk', trace_succ, Hlog. unfold frame_events.
              rewrite Himg, Hk, Hs. unfold detect_events, found_on.
              rewrite Hf, <- !app_assoc. reflexivity.
           ++ rewrite Hk', views_succ, Hviews. unfold frame_views, found_on.
              now rewrite Himg, Hk, Hs, Hf.
           ++ intros m Hm. unfold threshold_met in Ht. rewrite Hm in Ht.
              cbn [stepped used_frames] in Ht. apply Z.leb_gt in Ht. lia.
           ++ congruence.
      * rewrite examine_not_found by assumption.
        constructor;
          cbn [rejected_state stepped frame used_frames log img_points].
        -- rewrite Hk', trace_succ, Hlog. unfold frame_events.
           rewrite Himg, Hk, Hs. unfold detect_events, found_on.
           rewrite Hf, <- !app_assoc. reflexivity.
        -- rewrite Hk', views_succ, Hviews. unfold frame_views, found_on.
           now rewrite Himg, Hk, Hs, Hf, app_nil_r.
        -- assumption.
        -- congruence.
    + constructor; cbn [stepped frame used_frames log img_points].
      * rewrite Hk', trace_succ, Hlog. unfold frame_events.
        now rewrite Himg, Hk, Hs.
      * rewrite Hk', views_succ, Hviews. unfold frame_views.
        now rewrite Himg, Hk, Hs, app_nil_r.
      * assumption.
      * congruence.
  - left. apply frame_image_length in Himg.
    assert (He : k = source_length cfg) by (unfold k in *; lia).
    unfold ran_out. cbn [incr_frame frame log img_points used_frames].
    rewrite <- He. repeat split; try assumption. lia.
Qed.

Lemma iterating_frames (s : state) :
  iterating cfg pts s -> frames_inv cfg s.
Proof.
  induction 1 as [| s s' Hit IH Hb]; [apply frames_inv_init |].
  destruct (iterating_inv cfg pts s Hit) as [Hd Hi].
  pose proof (body_frames s Hd Hi IH) as Hstep. now rewrite Hb in Hstep.
Qed.

(** How the loop ends, as the source determines it. *)
Lemma sampling_frames :
  match sampling cfg pts with
  | Exited s => data_inv cfg pts s /\ (ran_out cfg s \/ cut_short cfg s)
  | Raised e s =>
      e = ZeroDivisionError /\ zero_stride cfg = true /\
      s = stepped cfg init /\ frame_image cfg 0 <> None
  | Running _ => False
  end.
Proof.
  unfold sampling.
  pose proof (while_true_leaves cfg pts (S (source_length cfg)) init
                (iterating_init cfg pts)) as Hrun.
  cbn [frame init] in Hrun. specialize (Hrun ltac:(cbn; lia)).
  destruct (while_true cfg pts (S (source_length cfg)) init)
    as [s | e s | s]; [| | assumption];
    destruct Hrun as (s0 & Hit & Hb);
    destruct (iterating_inv cfg pts s0 Hit) as [Hd Hi];
    pose proof (body_step cfg pts s0 Hd Hi) as Hstep;
    pose proof (body_frames s0 Hd Hi (iterating_frames s0 Hit)) as Hfr;
    rewrite Hb in Hstep, Hfr.
  - split; [apply Hstep | exact Hfr].
  - destruct Hstep as (He & Hz & _). repeat split; try assumption.
    pose proof (inv_first _ _ (iterating_frames s0 Hit) Hz) as H0.
    subst s0. rewrite body_cases in Hb by apply iter_inv_init.
    cbn [frame init] in Hb. change (Z.to_nat (-1 + 1)) with 0%nat in Hb.
    intros Hnone. rewrite Hnone in Hb. discriminate.
Qed.

End Steps.

End FrameByFrame.

(** ** The whole run *)

Section WholeRun.

Context {W : World}.

Variable cfg : Config.

(** The three ways a run can go: the pattern array cannot be built; the
    stride is zero and the video has a frame; the loop is left and the
    solver is called. *)
Lemma run_cases :
  (pattern_points (pattern_size cfg) = inl ValueError /\
   calibrate cfg = Raised ValueError init)
  \/
  (zero_stride cfg = true /\ frame_image cfg 0 <> None /\
   calibrate cfg = Raised ZeroDivisionError (stepped cfg init))
  \/
  (exists pts s,
     pattern_points (pattern_size cfg) = inr pts /\
     sampling cfg pts = Exited s /\
     data_inv cfg pts s /\
     (ran_out cfg s \/ cut_short cfg s) /\
     log (final (calibrate cfg))
     = log s ++ dump_events cfg s
         ++ [Stdout MsgCalibrating;
             Calibrate (obj_points s) (img_points s) (w s, h s)]
         ++ result_events cfg s).
Proof.
  destruct (pattern_points (pattern_size cfg)) as [e | pts] eqn:Hp.
  - left.
    assert (He : e = ValueError).
    { destruct (Z.ltb_spec (fst (pattern_size cfg)) 0) as [Hc | Hc].
      { rewrite pattern_points_negative in Hp by (now left). congruence. }
      destruct (Z.ltb_spec (snd (pattern_size cfg)) 0) as [Hr | Hr].
      { rewrite pattern_points_negative in Hp by (now right). congruence. }
      rewrite (surjective_pairing (pattern_size cfg)) in Hp.
      rewrite pattern_points_grid in Hp by assumption. discriminate. }
    subst e. split; [reflexivity |]. unfold calibrate. now rewrite Hp.
  - right. pose proof (sampling_frames cfg pts) as Hs.
    destruct (sampling cfg pts) as [s | e s | s] eqn:Hsam; [| | contradiction].
    + right. exists pts, s. destruct Hs as [Hd Hexit].
      split; [reflexivity |]. split; [exact Hsam |].
      split; [exact Hd |]. split; [exact Hexit |].
      apply (calibrate_after_sampling cfg pts s Hp Hsam).
    + left. destruct Hs as (-> & Hz & -> & Himg).
      split; [exact Hz |]. split; [exact Himg |].
      unfold calibrate. now rewrite Hp, Hsam.
Qed.

(** *** What the observers retain of the frames *)

Lemma stdout_app (l l' : list event) :
  stdout (l ++ l') = stdout l ++ stdout l'.
Proof. apply flat_map_app. Qed.

Lemma debug_images_app (l l' : list event) :
  debug_images (l ++ l') = debug_images l ++ debug_images l'.
Proof. apply flat_map_app. Qed.

Lemma yaml_files_app (l l' : list event) :
  yaml_files (l ++ l') = yaml_files l ++ yaml_files l'.
Proof. apply flat_map_app. Qed.

Lemma frame_events_shape (k : nat) :
  frame_events cfg k = [] \/
  exists img,
    frame_image cfg k = Some img /\
    (frame_events cfg k = [Read (Z.of_nat k)] \/
     frame_events cfg k
     = Read (Z.of_nat k)
       :: detect_events cfg (Z.of_nat k) img
       ++ debug_events cfg (Z.of_nat k) (found_on cfg img)).
Proof.
  unfold frame_events. destruct (frame_image cfg k) as [img |]; [| now left].
  right. exists img. split; [reflexivity |].
  destruct (sampled cfg (Z.of_nat k)); [now right | now left].
Qed.

Lemma offered_detect_events (i : Z) (img : Img) :
  offered (detect_events cfg i img) = [(i, cvtColor img)].
Proof. unfold detect_events. now destruct (found_on cfg img). Qed.

Lemma accepted_detect_events (i : Z) (img : Img) :
  accepted (detect_events cfg i img)
  = if found_on cfg img then [(i, cvtColor img)] else [].
Proof. unfold detect_events. now destruct (found_on cfg img). Qed.

Lemma stdout_detect_events (i : Z) (img : Img) :
  stdout (detect_events cfg i img) = report cfg (i, cvtColor img).
Proof. unfold detect_events, report, detected, found_on. cbn [fst snd].
  now destruct (fst (findChessboardCorners (cvtColor img) (pattern_size cfg))).
Qed.

Lemma debug_images_detect_events (i : Z) (img : Img) :
  debug_images (detect_events cfg i img) = [].
Proof. unfold detect_events. now destruct (found_on cfg img). Qed.

Lemma yaml_files_detect_events (i : Z) (img : Img) :
  yaml_files (detect_events cfg i img) = [].
Proof. unfold detect_events. now destruct (found_on cfg img). Qed.

Lemma stdout_debug_events (i : Z) (b : bool) :
  stdout (debug_events cfg i b) = [].
Proof. unfold debug_events. now destruct (debug_dir cfg). Qed.

Lemma yaml_files_debug_events (i : Z) (b : bool) :
  yaml_files (debug_events cfg i b) = [].
Proof. unfold debug_events. now destruct (debug_dir cfg). Qed.

Lemma debug_images_debug_events (i : Z) (b : bool) :
  debug_images (debug_events cfg i b)
  = match debug_dir cfg with Some d => [(d, i, b)] | None => [] end.
Proof. unfold debug_events. now destruct (debug_dir cfg). Qed.

(** The messages printed for the frame at position [k] are those of the
    frame offered, if it is. *)
Lemma stdout_frame_events (k : nat) :
  stdout (frame_events cfg k)
  = flat_map (report cfg) (offered (frame_events cfg k)).
Proof.
  destruct (frame_events_shape k) as [-> | (img & _ & [-> | ->])];
    try reflexivity.
  destruct (quiet_debug cfg (Z.of_nat k) (found_on cfg img))
    as (_ & Qo & _).
  change (Read (Z.of_nat k) :: ?l) with ([Read (Z.of_nat k)] ++ l).
  rewrite !stdout_app, !offered_app, Qo, offered_detect_events.
  rewrite stdout_detect_events, stdout_debug_events. cbn.
  now rewrite ?app_nil_r.
Qed.

Lemma stdout_trace (n : nat) :
  stdout (trace cfg n) = flat_map (report cfg) (offered (trace cfg n)).
Proof.
  induction n as [| n IH]; [reflexivity |].
  now rewrite trace_succ, stdout_app, offered_app, flat_map_app, IH,
    stdout_frame_events.
Qed.

Lemma accepted_frame_events (k : nat) :
  accepted (frame_events cfg k)
  = filter (detected cfg)
           (offered (frame_events cfg k)).
Proof.
  destruct (frame_events_shape k) as [-> | (img & _ & [-> | ->])];
    try reflexivity.
  destruct (quiet_debug cfg (Z.of_nat k) (found_on cfg img))
    as (_ & Qo & Qa & _).
  change (Read (Z.of_nat k) :: ?l) with ([Read (Z.of_nat k)] ++ l).
  rewrite !accepted_app, !offered_app, Qo, Qa, offered_detect_events,
    accepted_detect_events.
  cbn. unfold found_on, detected. cbn [snd].
  now destruct (fst (findChessboardCorners (cvtColor img) (pattern_size cfg))).
Qed.

Lemma accepted_trace (n : nat) :
  accepted (trace cfg n)
  = filter (detected cfg)
           (offered (trace cfg n)).
Proof.
  induction n as [| n IH]; [reflexivity |].
  now rewrite trace_succ, accepted_app, offered_app, filter_app, IH,
    accepted_frame_events.
Qed.

Lemma yaml_files_trace (n : nat) : yaml_files (trace cfg n) = [].
Proof.
  induction n as [| n IH]; [reflexivity |].
  rewrite trace_succ, yaml_files_app, IH.
  destruct (frame_events_shape n) as [-> | (img & _ & [-> | ->])];
    try reflexivity.
  change (Read (Z.of_nat n) :: ?l) with ([Read (Z.of_nat n)] ++ l).
  now rewrite !yaml_files_app, yaml_files_detect_events,
    yaml_files_debug_events.
Qed.

(** The debug images of the frame at position [k]. *)
Lemma debug_images_frame_events (k : nat) :
  debug_images (frame_events cfg k)
  = match debug_dir cfg with
    | Some d =>
        map (debug_tag cfg d)
            (offered (frame_events cfg k))
    | None => []
    end.
Proof.
  destruct (frame_events_shape k) as [-> | (img & _ & [-> | ->])].
  - now destruct (debug_dir cfg).
  - now destruct (debug_dir cfg).
  - destruct (quiet_debug cfg (Z.of_nat k) (found_on cfg img))
      as (_ & Qo & _).
    change (Read (Z.of_nat k) :: ?l) with ([Read (Z.of_nat k)] ++ l).
    rewrite !debug_images_app, !offered_app, Qo, offered_detect_events,
      debug_images_detect_events, debug_images_debug_events.
    now destruct (debug_dir cfg).
Qed.

Lemma debug_images_trace (n : nat) :
  debug_images (trace cfg n)
  = match debug_dir cfg with
    | Some d =>
        map (debug_tag cfg d)
            (offered (trace cfg n))
    | None => []
    end.
Proof.
  induction n as [| n IH]; [now destruct (debug_dir cfg) |].
  rewrite trace_succ, debug_images_app, IH, debug_images_frame_events,
    offered_app.
  destruct (debug_dir cfg); [now rewrite map_app | reflexivity].
Qed.

(** The two ways of leaving the loop, told apart by the frame counter. *)
Lemma ran_out_exhausted (s : state) :
  exit_inv cfg s -> ran_out cfg s -> exhausted cfg s.
Proof.
  intros [_ [He | (m & l & g & _ & _ & _ & Hlt & _)]] (Hfr & _);
    [assumption | lia].
Qed.

Lemma cut_short_stopped (s : state) :
  exit_inv cfg s -> cut_short cfg s -> stopped_on_accept cfg s.
Proof.
  intros [_ [(Hfr & _) | Hst]] (img & m & Hpos & Himg & _); [| assumption].
  assert (Hn : frame_image cfg (Z.to_nat (frame s)) = None)
    by (apply frame_image_length; lia).
  congruence.
Qed.

End WholeRun.

(** ** The end of the loop and what follows it *)

Section Further.

Context {W : World}.

Lemma offered_stop_events (cfg : Config) (i : Z) (img : Img) (u : Z) :
  offered (stop_events cfg i img u) = [(i, cvtColor img)].
Proof.
  unfold stop_events. change (Read i :: ?l) with ([Read i] ++ l).
  now rewrite !offered_app, offered_detect_events.
Qed.

Lemma accepted_stop_events (cfg : Config) (i : Z) (img : Img) (u : Z) :
  found_on cfg img = true ->
  accepted (stop_events cfg i img u) = [(i, cvtColor img)].
Proof.
  intros Hf. unfold stop_events. change (Read i :: ?l) with ([Read i] ++ l).
  now rewrite !accepted_app, accepted_detect_events, Hf.
Qed.

Lemma stdout_stop_events (cfg : Config) (i : Z) (img : Img) (u : Z) :
  stdout (stop_events cfg i img u)
  = report cfg (i, cvtColor img) ++ [MsgFound u].
Proof.
  unfold stop_events. change (Read i :: ?l) with ([Read i] ++ l).
  now rewrite !stdout_app, stdout_detect_events.
Qed.

Lemma debug_images_stop_events (cfg : Config) (i : Z) (img : Img) (u : Z) :
  debug_images (stop_events cfg i img u) = [].
Proof.
  unfold stop_events. change (Read i :: ?l) with ([Read i] ++ l).
  now rewrite !debug_images_app, debug_images_detect_events.
Qed.

Lemma yaml_files_stop_events (cfg : Config) (i : Z) (img : Img) (u : Z) :
  yaml_files (stop_events cfg i img u) = [].
Proof.
  unfold stop_events. change (Read i :: ?l) with ([Read i] ++ l).
  now rewrite !yaml_files_app, yaml_files_detect_events.
Qed.

(** What follows the loop reads no frame, detects nothing and writes no
    debug image. *)
Lemma after_loop_quiet (cfg : Config) (s : state) :
  let post :=
    dump_events cfg s
    ++ [Stdout MsgCalibrating;
        Calibrate (obj_points s) (img_points s) (w s, h s)]
    ++ result_events cfg s in
  offered post = [] /\ accepted post = [] /\ debug_images post = [].
Proof.
  unfold dump_events, result_events.
  destruct (corners_f cfg);
    destruct (calibrateCamera (obj_points s) (img_points s) (w s, h s));
    repeat split.
Qed.

Lemma source_frame_trace (cfg : Config) (n : nat) :
  Forall (source_frame cfg) (offered (trace cfg n)).
Proof.
  induction n as [| n IH]; [constructor |].
  rewrite trace_succ, offered_app. apply Forall_app. split; [exact IH |].
  destruct (frame_events_shape cfg n) as [-> | (img & Himg & [-> | ->])];
    [constructor | constructor |].
  destruct (quiet_debug cfg (Z.of_nat n) (found_on cfg img)) as (_ & Qo & _).
  change (Read (Z.of_nat n) :: ?l) with ([Read (Z.of_nat n)] ++ l).
  rewrite !offered_app, Qo, offered_detect_events. cbn.
  constructor; [| constructor].
  split; cbn [fst snd]; [lia |]. exists img. now rewrite Nat2Z.id.
Qed.

Lemma offered_frames_trace (cfg : Config) (n : nat) :
  NoDup (offered_frames (trace cfg n)) /\
  forall i, In i (offered_frames (trace cfg n)) -> i < Z.of_nat n.
Proof.
  induction n as [| n [IHd IHb]]; [split; [constructor | intros i []] |].
  rewrite trace_succ, offered_frames_app.
  assert (Hn : offered_frames (frame_events cfg n) = [] \/
               offered_frames (frame_events cfg n) = [Z.of_nat n]).
  { destruct (frame_events_shape cfg n) as [-> | (img & _ & [-> | ->])];
      [now left | now left | right].
    destruct (quiet_debug cfg (Z.of_nat n) (found_on cfg img))
      as (_ & Qo & _).
    change (Read (Z.of_nat n) :: ?l) with ([Read (Z.of_nat n)] ++ l).
    unfold offered_frames.
    now rewrite !offered_app, Qo, offered_detect_events. }
  destruct Hn as [-> | ->].
  - rewrite app_nil_r. split; [exact IHd |].
    intros i Hi. specialize (IHb i Hi). lia.
  - split.
    + apply NoDup_app; [exact IHd | repeat constructor; intros [] |].
      intros i Hi [<- | []]. specialize (IHb _ Hi). lia.
    + intros i Hi. apply in_app_or in Hi as [Hi | [<- | []]]; [| lia].
      specialize (IHb i Hi). lia.
Qed.


(** ** Runs that differ by the stride only *)

Lemma while_true_ext (cfg cfg' : Config) (pts : list point3) :
  (forall s, body cfg pts s = body cfg' pts s) ->
  forall fuel s, while_true cfg pts fuel s = while_true cfg' pts fuel s.
Proof.
  intros Hb. induction fuel as [| fuel IH]; intros s; [reflexivity |].
  cbn [while_true]. rewrite Hb.
  destruct (body cfg' pts s); [apply IH | reflexivity | reflexivity].
Qed.

Lemma calibrate_with_framestep (cfg : Config) (n n' : Z) :
  (forall pts s,
     body (with_framestep cfg n) pts s = body (with_framestep cfg n') pts s) ->
  calibrate (with_framestep cfg n) = calibrate (with_framestep cfg n').
Proof.
  intros Hb. unfold calibrate, sampling.
  change (pattern_size (with_framestep cfg n)) with (pattern_size cfg).
  change (pattern_size (with_framestep cfg n')) with (pattern_size cfg).
  change (source_length (with_framestep cfg n)) with (source_length cfg).
  change (source_length (with_framestep cfg n')) with (source_length cfg).
  destruct (pattern_points (pattern_size cfg)) as [e | pts]; [reflexivity |].
  rewrite (while_true_ext _ _ pts (Hb pts)).
  destruct (while_true (with_framestep cfg n') pts (S (source_length cfg))
              init);
    reflexivity.
Qed.

Lemma mod_opp_zero (a n : Z) : (a mod - n =? 0) = (a mod n =? 0).
Proof.
  destruct (Z.eq_dec n 0) as [-> | Hn]; [reflexivity |].
  destruct (Z.eq_dec (a mod n) 0) as [Hz | Hnz].
  - now rewrite Z.mod_opp_r_z, Hz by assumption.
  - rewrite Z.mod_opp_r_nz by assumption.
    destruct (Z.eqb_spec (a mod n - n) 0) as [He | _];
      destruct (Z.eqb_spec (a mod n) 0) as [He' | _];
      try reflexivity; try contradiction.
    destruct (Z.lt_total n 0) as [Hlt | [H0 | Hgt]]; [| contradiction |].
    + pose proof (Z.mod_neg_bound a n Hlt). lia.
    + pose proof (Z.mod_pos_bound a n Hgt). lia.
Qed.

Lemma more_fuel (cfg : Config) (pts : list point3) (fuel k : nat) (s : state) :
  (forall s', while_true cfg pts fuel s <> Running s') ->
  while_true cfg pts (fuel + k) s = while_true cfg pts fuel s.
Proof.
  revert s. induction fuel as [| fuel IH]; intros s Hrun.
  - now contradiction (Hrun s).
  - cbn [while_true Nat.add] in *.
    destruct (body cfg pts s); [now apply IH | reflexivity | reflexivity].
Qed.

End Further.

(** ** The names of the debug images *)

Lemma string_length_append (s t : string) :
  String.length (s ++ t) = (String.length s + String.length t)%nat.
Proof. induction s as [| c s IH]; simpl; [reflexivity | now rewrite IH]. Qed.

Lemma append_inj_l (s1 s2 t : string) :
  (s1 ++ t)%string = (s2 ++ t)%string -> s1 = s2.
Proof.
  revert s2. induction s1 as [| c s1 IH]; intros [| c' s2] Heq.
  - reflexivity.
  - apply (f_equal String.length) in Heq.
    rewrite (string_length_append (String c' s2)) in Heq. simpl in Heq. lia.
  - apply (f_equal String.length) in Heq.
    rewrite (string_length_append (String c s1)) in Heq. simpl in Heq. lia.
  - simpl in Heq. injection Heq as -> Heq. now rewrite (IH s2 Heq).
Qed.

(** The number that a string of digits denotes. *)
Lemma uint_of_zeros (n : nat) (s : string) :
  option_map N.of_uint (NilEmpty.uint_of_string (zeros n ++ s))
  = option_map N.of_uint (NilEmpty.uint_of_string s).
Proof.
  induction n as [| n IH]; [reflexivity |].
  rewrite <- IH. cbn [zeros String.append NilEmpty.uint_of_string].
  now destruct (NilEmpty.uint_of_string (zeros n ++ s)).
Qed.

Lemma zero_pad_decimal (width : nat) (n : N) :
  option_map N.of_uint (NilEmpty.uint_of_string (zero_pad width (decimal n)))
  = Some n.
Proof.
  unfold zero_pad, decimal.
  rewrite uint_of_zeros, NilEmpty.usu. cbn [option_map].
  now rewrite DecimalN.Unsigned.of_to.
Qed.

Lemma format_04d_inj (i j : Z) : format_04d i = format_04d j -> i = j.
Proof.
  unfold format_04d. intros Heq.
  destruct (Z.ltb_spec i 0) as [Hi | Hi];
    destruct (Z.ltb_spec j 0) as [Hj | Hj].
  - injection Heq as Heq.
    apply (f_equal (fun s => option_map N.of_uint (NilEmpty.uint_of_string s)))
      in Heq.
    rewrite !zero_pad_decimal in Heq. injection Heq as Heq. lia.
  - apply (f_equal (fun s => option_map N.of_uint (NilEmpty.uint_of_string s)))
      in Heq.
    rewrite zero_pad_decimal in Heq. cbn in Heq.
    destruct (NilEmpty.uint_of_string _); discriminate.
  - apply (f_equal (fun s => option_map N.of_uint (NilEmpty.uint_of_string s)))
      in Heq.
    rewrite zero_pad_decimal in Heq. cbn in Heq.
    destruct (NilEmpty.uint_of_string _); discriminate.
  - apply (f_equal (fun s => option_map N.of_uint (NilEmpty.uint_of_string s)))
      in Heq.
    rewrite !zero_pad_decimal in Heq. injection Heq as Heq. lia.
Qed.

(** * Further properties of [main] *)

Section Properties.

Context {W : World}.


(** X2: in every run, the frames whose corners are refined and stored are
    exactly the frames offered to the detector on which it found the
    pattern, in the same order. *)
Theorem refined_iff_found (cfg : Config) :
  accepted (log (final (calibrate cfg)))
  = filter (detected cfg) (offered (log (final (calibrate cfg)))).
Proof.
  destruct (run_cases cfg)
    as [[_ ->] | [(_ & _ & ->) | (pts & s & _ & _ & _ & Hexit & ->)]];
    try reflexivity.
  destruct (after_loop_quiet cfg s) as (Po & Pa & _).
  rewrite accepted_app, offered_app, filter_app, Po, Pa. cbn [filter].
  rewrite !app_nil_r.
  destruct Hexit as [(_ & -> & _)
                    | (img & m & _ & _ & _ & Hf & _ & _ & -> & _)].
  - apply accepted_trace.
  - rewrite accepted_app, offered_app, filter_app, accepted_trace,
      offered_stop_events, accepted_stop_events by assumption.
    cbn [filter]. unfold detected. cbn [snd].
    unfold found_on in Hf. now rewrite Hf.
Qed.

(** X3: every frame offered to the detector is the grayscale version of the
    frame that the source holds at that index: the frame counter and the
    read position of the source never drift apart. *)
Theorem offered_frames_are_source_frames (cfg : Config) :
  Forall (source_frame cfg) (offered (log (final (calibrate cfg)))).
Proof.
  destruct (run_cases cfg)
    as [[_ ->] | [(_ & _ & ->) | (pts & s & _ & _ & _ & Hexit & ->)]];
    try constructor.
  destruct (after_loop_quiet cfg s) as (Po & _).
  rewrite offered_app, Po, app_nil_r.
  destruct Hexit as [(_ & -> & _)
                    | (img & m & Hpos & Himg & _ & _ & _ & _ & -> & _)].
  - apply source_frame_trace.
  - rewrite offered_app, offered_stop_events. apply Forall_app.
    split; [apply source_frame_trace |].
    constructor; [| constructor]. split; [exact Hpos |]. now exists img.
Qed.

(** X4: when the loop is left, what was printed is, for each frame offered
    to the detector in order, the line announcing the frame and [ok] or
    [not found]; the line [Found n frames] follows exactly when the loop
    was left by the threshold, [n] being the number of views. *)
Theorem progress_report (cfg : Config) (pts : list point3) (s : state) :
  sampling cfg pts = Exited s ->
  (exhausted cfg s /\
   stdout (log s) = flat_map (report cfg) (offered (log s)))
  \/
  (stopped_on_accept cfg s /\
   stdout (log s)
   = flat_map (report cfg) (offered (log s)) ++ [MsgFound (used_frames s)]).
Proof.
  intros Hs. pose proof (sampling_frames cfg pts) as Hf.
  pose proof (sampling_outcome cfg pts) as Ho. rewrite Hs in Hf, Ho.
  destruct Ho as (_ & _ & Hexit). destruct Hf as [_ [Hr | Hc]].
  - left. split; [now apply ran_out_exhausted |].
    destruct Hr as (_ & -> & _). apply stdout_trace.
  - right. split; [now apply cut_short_stopped |].
    destruct Hc as (img & m & _ & _ & _ & _ & _ & _ & -> & _).
    rewrite stdout_app, offered_app, flat_map_app, stdout_trace,
      stdout_stop_events, offered_stop_events.
    cbn [flat_map]. now rewrite app_nil_r, <- app_assoc.
Qed.

(** X5: with a debug directory, one debug image is written for every frame
    offered to the detector, in order and with the outcome of the
    detection, except for the frame whose acceptance reaches the threshold:
    line 60 leaves the loop before lines 64-67.  Without a debug directory
    no debug image is written. *)
Theorem debug_images_written (cfg : Config) (pts : list point3) (s : state) :
  sampling cfg pts = Exited s ->
  match debug_dir cfg with
  | None => debug_images (log s) = []
  | Some d =>
      (exhausted cfg s /\
       debug_images (log s) = map (debug_tag cfg d) (offered (log s)))
      \/
      (stopped_on_accept cfg s /\
       debug_images (log s)
       = map (debug_tag cfg d) (removelast (offered (log s))))
  end.
Proof.
  intros Hs. pose proof (sampling_frames cfg pts) as Hf.
  pose proof (sampling_outcome cfg pts) as Ho. rewrite Hs in Hf, Ho.
  destruct Ho as (_ & _ & Hexit). destruct Hf as [_ [Hr | Hc]].
  - pose proof (ran_out_exhausted cfg s Hexit Hr) as Hex.
    destruct Hr as (_ & Hlog & _). rewrite Hlog, debug_images_trace.
    destruct (debug_dir cfg); [left; now split | reflexivity].
  - pose proof (cut_short_stopped cfg s Hexit Hc) as Hst.
    destruct Hc as (img & m & _ & _ & _ & _ & _ & _ & Hlog & _).
    rewrite Hlog, debug_images_app, debug_images_trace,
      debug_images_stop_events, app_nil_r.
    destruct (debug_dir cfg) as [d |]; [right | reflexivity].
    split; [exact Hst |].
    now rewrite offered_app, offered_stop_events, removelast_last.
Qed.

(** X6: the debug images of a run have pairwise distinct file names
    ['%04d.png' % frame]: none overwrites another, also beyond frame
    9999. *)
Theorem debug_names_distinct (cfg : Config) :
  NoDup (map (fun t => debug_name (snd (fst t)))
             (debug_images (log (final (calibrate cfg))))).
Proof.
  assert (Hinj : forall i j, debug_name i = debug_name j -> i = j).
  { intros i j Heq. apply format_04d_inj. exact (append_inj_l _ _ _ Heq). }
  assert (Htr : forall n,
             NoDup (map (fun t => debug_name (snd (fst t)))
                        (debug_images (trace cfg n)))).
  { intros n. rewrite debug_images_trace.
    destruct (debug_dir cfg) as [d |]; [| constructor].
    rewrite map_map. cbn [debug_tag fst snd].
    rewrite <- (map_map fst debug_name).
    apply Injective_map_NoDup; [exact Hinj |].
    apply (offered_frames_trace cfg n). }
  destruct (run_cases cfg)
    as [[_ ->] | [(_ & _ & ->) | (pts & s & _ & _ & _ & Hexit & ->)]];
    try constructor.
  destruct (after_loop_quiet cfg s) as (_ & _ & Pd).
  rewrite debug_images_app, Pd, app_nil_r.
  destruct Hexit as [(_ & -> & _)
                    | (img & m & _ & _ & _ & _ & _ & _ & -> & _)].
  - apply Htr.
  - rewrite debug_images_app, debug_images_stop_events, app_nil_r.
    apply Htr.
Qed.

(** X7: the calibration file is written exactly when [main] returns: once,
    as the last thing it does, under the name [output] and holding what the
    solver returned; a run that raises writes no calibration file. *)
Theorem output_written_iff_returns (cfg : Config) :
  match calibrate cfg with
  | Exited s =>
      exists l objs imgs size c,
        log s = l ++ [Calibrate objs imgs size; Stdout (MsgResults c);
                      YamlFile (output cfg) c] /\
        calibrateCamera objs imgs size = Some c /\
        yaml_files l = []
  | Raised _ s => yaml_files (log s) = []
  | Running _ => False
  end.
Proof.
  destruct (run_cases cfg)
    as [[_ ->] | [(_ & _ & ->) | (pts & s & Hp & Hs & _ & Hexit & _)]];
    try reflexivity.
  assert (Hy : yaml_files (log s) = []).
  { destruct Hexit as [(_ & -> & _)
                      | (img & m & _ & _ & _ & _ & _ & _ & -> & _)].
    - apply yaml_files_trace.
    - now rewrite yaml_files_app, yaml_files_trace, yaml_files_stop_events. }
  unfold calibrate. rewrite Hp, Hs. unfold solve, dump_corners.
  destruct (corners_f cfg) as [path |];
    cbn [emit obj_points img_points h w log];
    destruct (calibrateCamera (obj_points s) (img_points s) (w s, h s))
      as [c |] eqn:Hc;
    cbn [emit log].
  - exists ((log s ++ [PickleFile path
                         [PImgPoints (img_points s); PObjPoints (obj_points s);
                          PSize (w s, h s)]])
            ++ [Stdout MsgCalibrating]),
      (obj_points s), (img_points s), (w s, h s), c.
    split; [now rewrite <- !app_assoc |]. split; [exact Hc |].
    now rewrite !yaml_files_app, Hy.
  - now rewrite !yaml_files_app, Hy.
  - exists (log s ++ [Stdout MsgCalibrating]),
      (obj_points s), (img_points s), (w s, h s), c.
    split; [now rewrite <- !app_assoc |]. split; [exact Hc |].
    now rewrite !yaml_files_app, Hy.
  - now rewrite !yaml_files_app, Hy.
Qed.

(** X8: a stride of zero on a video that has at least one frame: [main]
    raises [ZeroDivisionError] once the first frame is read, before any
    detection; nothing is printed, no file is written and the solver is not
    called. *)
Theorem zero_stride_stops_first_frame (cfg : Config) (img : Img)
    (frames : list Img) :
  source cfg = Capture (img :: frames) ->
  framestep cfg = 0 ->
  0 <= fst (pattern_size cfg) -> 0 <= snd (pattern_size cfg) ->
  exists s,
    calibrate cfg = Raised ZeroDivisionError s /\ log s = [Read 0].
Proof.
  intros Hsrc Hstep Hc Hr. unfold calibrate.
  rewrite (surjective_pairing (pattern_size cfg)).
  rewrite pattern_points_grid by assumption.
  unfold sampling. cbn [while_true]. unfold body. rewrite Hsrc.
  cbn [incr_frame cap_pos init nth_error]. unfold py_mod. rewrite Hstep.
  cbn. eexists. split; reflexivity.
Qed.

(** X9: a source without any frame (a mask that matches no file, a video
    that yields no frame): nothing is read or offered to the detector, and
    the solver is still called, with no view and the size [(0, 0)],
    whatever the stride and the threshold. *)
Theorem empty_source_still_solves (cfg : Config) :
  source_length cfg = 0%nat ->
  0 <= fst (pattern_size cfg) -> 0 <= snd (pattern_size cfg) ->
  read_frames (log (final (calibrate cfg))) = [] /\
  offered (log (final (calibrate cfg))) = [] /\
  solver_calls (log (final (calibrate cfg))) = [([], [], (0, 0))].
Proof.
  intros Hlen Hc Hr. unfold calibrate.
  rewrite (surjective_pairing (pattern_size cfg)).
  rewrite pattern_points_grid by assumption.
  set (pts := grid _ _).
  assert (Hb : body cfg pts init = Break (incr_frame init)).
  { unfold body, source_length in *.
    destruct (source cfg) as [[| f files] | [| f frames]];
      try discriminate; reflexivity. }
  unfold sampling. rewrite Hlen. cbn [while_true]. rewrite Hb.
  unfold solve, dump_corners. destruct (corners_f cfg);
    cbn [emit incr_frame init obj_points img_points h w log];
    destruct (calibrateCamera _ _ _);
    (split; [reflexivity | split; reflexivity]).
Qed.

(** X10: the sign of the stride does not matter: a run with stride [- n]
    is the run with stride [n]. *)
Theorem negative_stride (cfg : Config) (n : Z) :
  calibrate (with_framestep cfg (- n)) = calibrate (with_framestep cfg n).
Proof.
  apply calibrate_with_framestep. intros pts s. unfold body.
  cbn [source framestep with_framestep].
  destruct (source cfg) as [files | frames]; [reflexivity |].
  destruct (nth_error frames (cap_pos (incr_frame s))); [| reflexivity].
  unfold py_mod.
  destruct (Z.eqb_spec n 0) as [-> | Hn]; [reflexivity |].
  destruct (Z.eqb_spec (- n) 0); [lia |].
  now rewrite mod_opp_zero.
Qed.

(** X11: an input that contains ['*'] is a list of image files, and for
    such an input the stride plays no part: the runs of [main] with two
    strides, zero included, are the same. *)
Theorem glob_ignores_framestep (input output : string) (pattern_size : Z * Z)
    (debug_dir corners_f : option string) (n n' : Z) (max_frames : option Z) :
  contains_star input = true ->
  main input output pattern_size debug_dir corners_f n max_frames
  = main input output pattern_size debug_dir corners_f n' max_frames.
Proof.
  intros Hstar. unfold main, open_source. rewrite Hstar.
  apply (calibrate_with_framestep
           (mkConfig (Glob (glob input)) output pattern_size debug_dir
                     corners_f 0 max_frames) n n').
  reflexivity.
Qed.

(** X12: the loop ends within one iteration per frame of the source and one
    more, whatever the frames hold: allowing more iterations changes
    nothing, and the loop never fails on the index of line 38. *)
Theorem loop_bound (cfg : Config) (pts : list point3) (fuel : nat) :
  (source_length cfg < fuel)%nat ->
  while_true cfg pts fuel init = sampling cfg pts /\
  (forall s, sampling cfg pts <> Running s) /\
  (forall s, sampling cfg pts <> Raised IndexError s).
Proof.
  intros Hfuel.
  assert (Hrun : forall s, sampling cfg pts <> Running s)
    by apply sampling_terminates.
  split; [| split; [exact Hrun |]].
  - replace fuel
      with (S (source_length cfg) + (fuel - S (source_length cfg)))%nat
      by lia.
    now apply more_fuel.
  - intros s Heq. pose proof (sampling_outcome cfg pts) as Ho.
    rewrite Heq in Ho. destruct Ho as (He & _). discriminate He.
Qed.

End Properties.


Lemma progress_report_witness :
  exists s,
    sampling Demo.first_only Demo.pts74 = Exited s /\
    stdout (log s) = [Searching 0; MsgOk; MsgFound 1].
Proof.
  exists (final (sampling Demo.first_only Demo.pts74)).
  split; [vm_compute; reflexivity |].
  destruct (progress_report Demo.first_only Demo.pts74
              (final (sampling Demo.first_only Demo.pts74))
              ltac:(vm_compute; reflexivity))
    as [[[Hfr _] _] | [_ Hout]].
  - vm_compute in Hfr. discriminate Hfr.
  - rewrite Hout. vm_compute. reflexivity.
Defined.

Lemma debug_images_written_witness :
  exists s,
    sampling Demo.debugged Demo.pts74 = Exited s /\
    offered_frames (log s) = [0; 20] /\
    debug_images (log s) = [("dbg"%string, 0, true)].
Proof.
  exists (final (sampling Demo.debugged Demo.pts74)).
  split; [vm_compute; reflexivity |].
  split; [vm_compute; reflexivity |].
  pose proof (debug_images_written Demo.debugged Demo.pts74
                (final (sampling Demo.debugged Demo.pts74))
                ltac:(vm_compute; reflexivity)) as Hd.
  cbn [debug_dir Demo.debugged] in Hd.
  destruct Hd as [[[Hfr _] _] | [_ Hd]].
  - vm_compute in Hfr. discriminate Hfr.
  - rewrite Hd. vm_compute. reflexivity.
Defined.

Lemma zero_stride_stops_first_frame_witness :
  exists s,
    calibrate Demo.zero_step = Raised ZeroDivisionError s /\
    log s = [Read 0].
Proof.
  exact (zero_stride_stops_first_frame Demo.zero_step Demo.vga
           (repeat Demo.vga 99) eq_refl eq_refl
           ltac:(cbn; lia) ltac:(cbn; lia)).
Defined.

Lemma empty_source_still_solves_witness :
  solver_calls (log (final (calibrate Demo.empty_run))) = [([], [], (0, 0))].
Proof.
  exact (proj2 (proj2 (empty_source_still_solves Demo.empty_run eq_refl
                         ltac:(cbn; lia) ltac:(cbn; lia)))).
Defined.

Lemma glob_ignores_framestep_witness :
  main (W := Demo.world) "shots/*.png" "out.yaml" (7, 4) None None 20 None
  = main (W := Demo.world) "shots/*.png" "out.yaml" (7, 4) None None 0 None.
Proof.
  exact (glob_ignores_framestep (W := Demo.world) "shots/*.png" "out.yaml"
           (7, 4) None None 20 0 None eq_refl).
Defined.

Lemma loop_bound_witness :
  while_true Demo.two_views Demo.pts74 5 init
  = sampling Demo.two_views Demo.pts74.
Proof.
  exact (proj1 (loop_bound Demo.two_views Demo.pts74 5
                  ltac:(cbn; lia))).
Defined.

(** * The program at work *)

Example zero_stride_raises :
  exists s, calibrate Demo.zero_step = Raised ZeroDivisionError s /\
            read_frames (log s) = [0] /\ offered (log s) = [].
Proof. eexists. split; [vm_compute; reflexivity |]. now split. Qed.

Example negative_pattern_raises :
  pattern_points (-7, -4) = inl ValueError /\
  calibrate Demo.negative_pattern = Raised ValueError init.
Proof. split; reflexivity. Qed.

Example no_frame_at_all :
  solver_calls (log (final (calibrate Demo.empty_run))) = [([], [], (0, 0))].
Proof. reflexivity. Qed.

Example one_by_one_pattern :
  pattern_points (1, 1) = inr [(0, 0, 0)] /\
  offered_frames (log (final (calibrate Demo.tiny_pattern))) = [0] /\
  ~ raises (calibrate Demo.tiny_pattern).
Proof.
  split; [reflexivity | split; [reflexivity |]].
  intros (e & s & Heq). vm_compute in Heq. discriminate Heq.
Qed.

Example three_by_two_points :
  pattern_points (3, 2)
  = inr [(0, 0, 0); (1, 0, 0); (2, 0, 0); (0, 1, 0); (1, 1, 0); (2, 1, 0)].
Proof. reflexivity. Qed.

Example debug_name_samples :
  debug_name 0 = "0000.png"%string /\ debug_name 120 = "0120.png"%string /\
  debug_name 12345 = "12345.png"%string.
Proof. repeat split. Qed.

Example format_04d_negative : format_04d (-5) = "-005"%string.
Proof. reflexivity. Qed.
